(** * dcos-deploy: configuration resolution and dependency graph

    A shallow embedding of [dcosdeploy/config.py] and the properties its
    specification states about it.

    Conventions of the embedding:
    - a Python [str] is a [string], the bytes of its UTF-8 encoding;
      [str.upper], which knows Unicode, is taken from outside;
    - a value read from YAML is a tree [yaml]; floats are left out;
    - a Python [dict] is an association list in insertion order with
      pairwise distinct keys, keys being strings;
    - a Python call that may raise returns a [result]; the exceptions are
      the constructors of [exn]. *)

From Stdlib Require Import List String Ascii Bool ZArith Lia.
From Stdlib Require Import DecimalString.
Import ListNotations.
Local Open Scope string_scope.
Local Open Scope list_scope.

Set Implicit Arguments.
Set Warnings "-register-all".

(** ** Exceptions and fallible computations *)

Inductive yaml : Type :=
| YNull
| YBool (b : bool)
| YInt (z : Z)
| YStr (s : string)
| YList (l : list yaml)
| YMap (m : list (string * yaml)).

(** [TypeError] stands for both [TypeError] and [AttributeError]: what
    Python raises when an operation meets a value of the wrong shape. *)
Inductive exn : Type :=
| ConfigurationException (msg : string)
| Exception (msg : string)
| KeyError (key : yaml)
| ValueError
| TypeError
| ImportError (module_path : string)
| IOError (path : string).

Inductive result (A : Type) : Type :=
| OK (a : A)
| Raise (e : exn).

Arguments OK {A} a.
Arguments Raise {A} e.

Definition bind {A B : Type} (c : result A) (k : A -> result B) : result B :=
  match c with
  | OK a => k a
  | Raise e => Raise e
  end.

Notation "x <- c ;; k" := (bind c (fun x => k))
  (at level 61, c at next level, right associativity).
Notation "' pat <- c ;; k" := (bind c (fun x => match x with pat => k end))
  (at level 61, pat pattern, c at next level, right associativity).

Definition is_configuration_error {A : Type} (r : result A) : Prop :=
  exists msg, r = Raise (ConfigurationException msg).

Definition fails {A : Type} (r : result A) : Prop :=
  exists e, r = Raise e.

(** ** Strings *)

Definition is_lower (c : ascii) : bool :=
  let n := nat_of_ascii c in (97 <=? n)%nat && (n <=? 122)%nat.

Definition upper_char (c : ascii) : ascii :=
  if is_lower c then ascii_of_nat (nat_of_ascii c - 32) else c.

Fixpoint map_string (f : ascii -> ascii) (s : string) : string :=
  match s with
  | EmptyString => EmptyString
  | String c r => String (f c) (map_string f r)
  end.

(** [s.upper()] on ASCII text: the letters [a] to [z] become [A] to
    [Z], every other character stays. *)
Definition ascii_upper (s : string) : string := map_string upper_char s.

(** [s.replace(a, b)] for one-character [a] and [b] *)
Definition replace_char (a b : ascii) (s : string) : string :=
  map_string (fun c => if Ascii.eqb c a then b else c) s.

(** [s.count(c)] for a one-character [c] *)
Fixpoint count_char (c : ascii) (s : string) : nat :=
  match s with
  | EmptyString => 0
  | String d r => (if Ascii.eqb d c then 1 else 0) + count_char c r
  end.

(** [s.count("{{")]: occurrences are counted without overlap, left to
    right. *)
Fixpoint count_open (s : string) : nat :=
  match s with
  | String "{" (String "{" r) => S (count_open r)
  | String _ r => count_open r
  | EmptyString => 0
  end.

(** [s.rsplit(c, 1)] when [c] occurs in [s]: the text before and after the
    last occurrence; [None] when [c] does not occur. *)
Fixpoint rsplit1 (c : ascii) (s : string) : option (string * string) :=
  match s with
  | EmptyString => None
  | String d r =>
      match rsplit1 c r with
      | Some (a, b) => Some (String d a, b)
      | None => if Ascii.eqb d c then Some (EmptyString, r) else None
      end
  end.

(** [s.split(c)]: never empty. *)
Fixpoint split (c : ascii) (s : string) : list string :=
  match s with
  | EmptyString => [EmptyString]
  | String d r =>
      if Ascii.eqb d c then EmptyString :: split c r
      else match split c r with
           | p :: ps => String d p :: ps
           | [] => [String d EmptyString]
           end
  end.

(** [sep.join(parts)] *)
Fixpoint join (sep : string) (parts : list string) : string :=
  match parts with
  | [] => ""
  | [p] => p
  | p :: ps => p ++ sep ++ join sep ps
  end.

(** [a in b] for two strings: [a] occurs in [b]. *)
Fixpoint is_substring (a b : string) : bool :=
  String.prefix a b ||
  match b with
  | EmptyString => false
  | String _ r => is_substring a r
  end.

(** A byte that continues a character of several bytes in UTF-8. *)
Definition is_continuation (c : ascii) : bool :=
  let n := nat_of_ascii c in (128 <=? n)%nat && (n <? 192)%nat.

(** [list(s)]: the characters of a string, each with all its bytes. *)
Fixpoint chars (s : string) : list string :=
  match s with
  | EmptyString => []
  | String c r =>
      let rest := chars r in
      let joins :=
        match r with
        | String d _ => is_continuation d
        | EmptyString => false
        end in
      match rest with
      | p :: ps => if joins then String c p :: ps
                   else String c EmptyString :: rest
      | [] => [String c EmptyString]
      end
  end.

(** ** Dictionaries *)

Definition dict (V : Type) : Type := list (string * V).

Fixpoint dict_get {V : Type} (d : dict V) (k : string) : option V :=
  match d with
  | [] => None
  | (k', v) :: d' => if String.eqb k' k then Some v else dict_get d' k
  end.

(** [k in d] *)
Definition dict_has {V : Type} (d : dict V) (k : string) : bool :=
  match dict_get d k with
  | Some _ => true
  | None => false
  end.

(** [d[k] = v]: an existing key keeps its place, a new one goes last. *)
Fixpoint dict_set {V : Type} (d : dict V) (k : string) (v : V) : dict V :=
  match d with
  | [] => [(k, v)]
  | (k', v') :: d' =>
      if String.eqb k' k then (k', v) :: d' else (k', v') :: dict_set d' k v
  end.

Definition keys {V : Type} (d : dict V) : list string := map fst d.

(** [d.get(k, default)] *)
Definition get_default {V : Type} (d : dict V) (k : string) (default : V) : V :=
  match dict_get d k with
  | Some v => v
  | None => default
  end.

(** ** Python values *)

(** Truth value of a Python object ([if v:], [not v]). *)
Definition truthy (v : yaml) : bool :=
  match v with
  | YNull => false
  | YBool b => b
  | YInt z => negb (Z.eqb z 0)
  | YStr s => negb (String.eqb s "")
  | YList l => match l with [] => false | _ => true end
  | YMap m => match m with [] => false | _ => true end
  end.

(** [a == b].  [True == 1] and [False == 0] hold in Python; two dicts are
    equal when they have the same keys with equal values, in any order. *)
Fixpoint py_eq (a b : yaml) : bool :=
  match a, b with
  | YNull, YNull => true
  | YBool x, YBool y => Bool.eqb x y
  | YBool x, YInt y => Z.eqb (Z.b2z x) y
  | YInt x, YBool y => Z.eqb x (Z.b2z y)
  | YInt x, YInt y => Z.eqb x y
  | YStr x, YStr y => String.eqb x y
  | YList l, YList m =>
      (fix all2 (l m : list yaml) : bool :=
         match l, m with
         | [], [] => true
         | x :: l', y :: m' => py_eq x y && all2 l' m'
         | _, _ => false
         end) l m
  | YMap l, YMap m =>
      Nat.eqb (List.length l) (List.length m) &&
      (fix all (l : list (string * yaml)) : bool :=
         match l with
         | [] => true
         | (k, v) :: l' =>
             match dict_get m k with
             | Some w => py_eq v w
             | None => false
             end && all l'
         end) l
  | _, _ => false
  end.

(** [v in l] for a list [l] *)
Definition list_contains (l : list yaml) (v : yaml) : bool :=
  existsb (fun x => py_eq x v) l.

(** [v.get(k)]: only a dict has the method. *)
Definition yaml_get (v : yaml) (k : string) : result (option yaml) :=
  match v with
  | YMap m => OK (dict_get m k)
  | _ => Raise TypeError
  end.

(** [v.items()] *)
Definition yaml_items (v : yaml) : result (dict yaml) :=
  match v with
  | YMap m => OK m
  | _ => Raise TypeError
  end.

(** [k in v] for a string [k]: key of a dict, element of a list, part of
    a string. *)
Definition yaml_has_key (k : string) (v : yaml) : result bool :=
  match v with
  | YMap m => OK (dict_has m k)
  | YList l => OK (list_contains l (YStr k))
  | YStr s => OK (is_substring k s)
  | _ => Raise TypeError
  end.

(** [v[k]] for a string [k] *)
Definition yaml_index (v : yaml) (k : string) : result yaml :=
  match v with
  | YMap m =>
      match dict_get m k with
      | Some x => OK x
      | None => Raise (KeyError (YStr k))
      end
  | _ => Raise TypeError
  end.

(** [x in v]: a dict hashes [x] first, which a list or a dict does not
    allow. *)
Definition py_in (x v : yaml) : result bool :=
  match v with
  | YList l => OK (list_contains l x)
  | YMap m =>
      match x with
      | YList _ | YMap _ => Raise TypeError
      | _ => OK (list_contains (map YStr (keys m)) x)
      end
  | YStr s =>
      match x with
      | YStr a => OK (is_substring a s)
      | _ => Raise TypeError
      end
  | _ => Raise TypeError
  end.

(** [for x in v]: the elements of a list, the keys of a dict, the
    characters of a string. *)
Definition py_iter (v : yaml) : result (list yaml) :=
  match v with
  | YList l => OK l
  | YMap m => OK (map YStr (keys m))
  | YStr s => OK (map YStr (chars s))
  | _ => Raise TypeError
  end.

Definition as_str (v : yaml) : result string :=
  match v with
  | YStr s => OK s
  | _ => Raise TypeError
  end.

Fixpoint all_str (l : list yaml) : result (list string) :=
  match l with
  | [] => OK []
  | x :: l' => s <- as_str x ;; r <- all_str l' ;; OK (s :: r)
  end.

(** [sep.join(v)]: every item must be a string. *)
Definition py_join (sep : string) (v : yaml) : result string :=
  items <- py_iter v ;;
  parts <- all_str items ;;
  OK (join sep parts).

(** [str(z)] *)
Definition str_of_Z (z : Z) : string := NilZero.string_of_int (Z.to_int z).

(** ** The program *)

Definition STANDARD_MODULES : list string :=
  [ "dcosdeploy.modules.accounts";
    "dcosdeploy.modules.secrets";
    "dcosdeploy.modules.jobs";
    "dcosdeploy.modules.apps";
    "dcosdeploy.modules.frameworks";
    "dcosdeploy.modules.certs";
    "dcosdeploy.modules.repositories";
    "dcosdeploy.modules.edgelb";
    "dcosdeploy.modules.s3" ].

Record VariableContainer : Type := { variables : dict yaml }.

Record ConfigHelper : Type :=
  { variables_container : VariableContainer;
    base_path : string }.

(** [{**a, **b}] *)
Definition dict_merge {V : Type} (a b : dict V) : dict V :=
  fold_left (fun acc kv => dict_set acc (fst kv) (snd kv)) b a.

Section Program.

(** What the program takes from outside: the template engine
    [pystache.render], Python's [str] of a list or a dict, Python's
    [str.upper], the deployment objects and managers of the entity
    modules together with the truth value of a deployment object, the
    module importer (which reads [sys.path]), the YAML file reader and
    the path functions of [os.path]. *)
Variable pystache_render : string -> dict yaml -> result string.
Variable container_str : yaml -> string.
Variable upper : string -> string.
Variables obj manager : Type.
Variable obj_truthy : obj -> bool.

(** What the program uses of an imported entity module. *)
Record PyModule : Type :=
  { __config__ : string;
    __manager__ : manager;
    __config_name__ : string;
    parse_config : string -> yaml -> ConfigHelper -> result obj;
    preprocess_config :
      option (string -> yaml -> ConfigHelper -> result (list (string * yaml))) }.

(** An entry of the [modules] dict built by [_init_modules]. *)
Record module_entry : Type :=
  { parser : string -> yaml -> ConfigHelper -> result obj;
    preprocesser :
      option (string -> yaml -> ConfigHelper -> result (list (string * yaml))) }.

Variable import_module : list string -> string -> result PyModule.
Variable read_yaml : string -> result yaml.
Variables abspath dirname : string -> string.
Variable path_join : string -> string -> string.

(** [str(v)], as ["%s" % v] formats it *)
Definition py_str (v : yaml) : string :=
  match v with
  | YNull => "None"
  | YBool true => "True"
  | YBool false => "False"
  | YInt z => str_of_Z z
  | YStr s => s
  | _ => container_str v
  end.

(** *** VariableContainer *)

Definition render (self : VariableContainer) (text : string)
    (extra_vars : dict yaml) : result string :=
  let variables :=
    match extra_vars with
    | [] => self.(variables)
    | _ => dict_merge self.(variables) extra_vars
    end in
  result_text <- pystache_render text variables ;;
  if negb (Nat.eqb (count_open result_text) 0)
  then Raise (ConfigurationException "Unresolved variable")
  else OK result_text.

(** [dict.get] gives [None] for a missing key. *)
Definition get (self : VariableContainer) (name : string) : yaml :=
  get_default self.(variables) name YNull.

Definition has (self : VariableContainer) (name : string) : bool :=
  dict_has self.(variables) name.

(** *** ConfigHelper *)

Definition ConfigHelper_abspath (self : ConfigHelper) (path : string) : string :=
  abspath (path_join self.(base_path) path).

Definition ConfigHelper_render (self : ConfigHelper) (text : string)
    (extra_vars : dict yaml) : result string :=
  render self.(variables_container) text extra_vars.

(** *** Variables *)

Definition derived_env_name (name : string) : string :=
  "VAR_" ++ upper (replace_char "-" "_" name).

Definition _calculate_variable_value (environ : dict string) (name : string)
    (config : yaml) (provided_variables : dict yaml) : result yaml :=
  match dict_get provided_variables name with
  | Some v => OK v
  | None =>
      from <- yaml_get config "from" ;;
      env_name <-
        match from with
        | Some f => if truthy f then as_str f else OK (derived_env_name name)
        | None => OK (derived_env_name name)
        end ;;
      match dict_get environ env_name with
      | Some s => OK (YStr s)
      | None =>
          has_default <- yaml_has_key "default" config ;;
          if has_default then yaml_index config "default" else OK YNull
      end
  end.

(** The body of the first loop of [_read_variables]: the value stored
    for [name], or the exception raised. *)
Definition read_variable (environ : dict string) (provided_variables : dict yaml)
    (name : string) (config : yaml) : result yaml :=
  value <- _calculate_variable_value environ name config provided_variables ;;
  required <-
    (if truthy value then OK false
     else r <- yaml_get config "required" ;;
          OK (truthy (match r with Some x => x | None => YBool false end))) ;;
  if required
  then Raise (ConfigurationException ("Missing required variable " ++ name))
  else
    has_values <- yaml_has_key "values" config ;;
    if has_values then
      allowed <- yaml_index config "values" ;;
      member <- py_in value allowed ;;
      if member then OK value
      else
        joined <- py_join "," allowed ;;
        Raise (ConfigurationException
                 ("Value '" ++ py_str value ++ "' not allowed for " ++ name
                  ++ ". Possible values: " ++ joined))
    else OK value.

Fixpoint read_declared (environ : dict string) (provided_variables : dict yaml)
    (items : dict yaml) (resulting_variables : dict yaml) : result (dict yaml) :=
  match items with
  | [] => OK resulting_variables
  | (name, config) :: rest =>
      value <- read_variable environ provided_variables name config ;;
      read_declared environ provided_variables rest
        (dict_set resulting_variables name value)
  end.

(** The second loop of [_read_variables]. *)
Definition pass_through (provided_variables resulting_variables : dict yaml)
    : dict yaml :=
  fold_left
    (fun acc kv => if dict_has acc (fst kv) then acc
                   else dict_set acc (fst kv) (snd kv))
    provided_variables resulting_variables.

Definition _read_variables (environ : dict string) (variables : yaml)
    (provided_variables : dict yaml) : result VariableContainer :=
  items <- yaml_items variables ;;
  resulting_variables <- read_declared environ provided_variables items [] ;;
  OK {| variables := pass_through provided_variables resulting_variables |}.

(** *** Conditions *)

Fixpoint only_fails (variables : VariableContainer) (items : dict yaml) : bool :=
  match items with
  | [] => false
  | (var, value) :: rest =>
      if negb (has variables var) then true
      else if negb (py_eq (get variables var) value) then true
      else only_fails variables rest
  end.

Fixpoint except_hits (variables : VariableContainer) (items : dict yaml) : bool :=
  match items with
  | [] => false
  | (var, value) :: rest =>
      if has variables var && py_eq (get variables var) value then true
      else except_hits variables rest
  end.

Definition _check_conditions_apply (variables : VariableContainer)
    (restriction_only restriction_except : yaml) : result bool :=
  skip <-
    (if truthy restriction_only
     then items <- yaml_items restriction_only ;; OK (only_fails variables items)
     else OK false) ;;
  if skip then OK true
  else if truthy restriction_except
  then items <- yaml_items restriction_except ;; OK (except_hits variables items)
  else OK false.

(** *** Dependencies *)

(** Unpacking a list into two names: [a, b = parts]. *)
Definition unpack2 (parts : list string) : result (string * string) :=
  match parts with
  | [a; b] => OK (a, b)
  | _ => Raise ValueError
  end.

(** [s.rsplit(c, 1)] *)
Definition py_rsplit1 (c : ascii) (s : string) : list string :=
  match rsplit1 c s with
  | Some (a, b) => [a; b]
  | None => [s]
  end.

(** A raw dependency as name and relation kind. *)
Definition split_dependency (dependency : string) : result (string * string) :=
  if (0 <? count_char ":" dependency)%nat
  then unpack2 (py_rsplit1 ":" dependency)
  else OK (dependency, "create").

Definition dependency_triple : Type := (string * obj * string)%type.

(** The body of the inner loop of [_build_dependency_tree]. *)
Definition resolve_dependency (config : dict obj) (dependency : yaml)
    : result dependency_triple :=
  raw <- as_str dependency ;;
  ' (dependency, dep_type) <- split_dependency raw ;;
  match dict_get config dependency with
  | Some dependency_object =>
      if obj_truthy dependency_object
      then OK (dependency, dependency_object, dep_type)
      else Raise (Exception ("Could not find " ++ dependency))
  | None => Raise (Exception ("Could not find " ++ dependency))
  end.

Fixpoint resolve_all (config : dict obj) (string_dependencies : list yaml)
    : result (list dependency_triple) :=
  match string_dependencies with
  | [] => OK []
  | dependency :: rest =>
      t <- resolve_dependency config dependency ;;
      ts <- resolve_all config rest ;;
      OK (t :: ts)
  end.

Fixpoint build_entries (config : dict obj) (items : dict yaml)
    (resulting_dependencies : dict (list dependency_triple))
    : result (dict (list dependency_triple)) :=
  match items with
  | [] => OK resulting_dependencies
  | (name, string_dependencies) :: rest =>
      raw <- py_iter string_dependencies ;;
      dependencies <- resolve_all config raw ;;
      build_entries config rest (dict_set resulting_dependencies name dependencies)
  end.

Definition _build_dependency_tree (dependencies_map : dict yaml)
    (config : dict obj) : result (dict (list dependency_triple)) :=
  build_entries config dependencies_map [].

(** *** Entities *)

Definition reserved (name : string) : bool :=
  existsb (String.eqb name) ["variables"; "modules"; "includes"].

(** [modules[entity_config["type"]]] *)
Definition lookup_module (modules : dict module_entry) (entity_config : yaml)
    : result module_entry :=
  type <- yaml_index entity_config "type" ;;
  match type with
  | YStr t =>
      match dict_get modules t with
      | Some module => OK module
      | None => Raise (KeyError type)
      end
  | YList _ | YMap _ => Raise TypeError
  | _ => Raise (KeyError type)
  end.

Definition or_default (o : option yaml) (default : yaml) : yaml :=
  match o with
  | Some v => v
  | None => default
  end.

Definition entities_state : Type := (dict obj * dict yaml)%type.

(** The body of the inner loop of [_read_config_entities]. *)
Definition read_entity (module : module_entry) (variables : VariableContainer)
    (config_helper : ConfigHelper) (state : entities_state)
    (name : string) (entity_config : yaml) : result entities_state :=
  let (deployment_objects, deployment_dependencies) := state in
  only <- yaml_get entity_config "only" ;;
  except <- yaml_get entity_config "except" ;;
  skip <- _check_conditions_apply variables
            (or_default only (YMap [])) (or_default except (YMap [])) ;;
  if skip then OK state
  else
    dependencies <- yaml_get entity_config "dependencies" ;;
    deployment_object <- module.(parser) name entity_config config_helper ;;
    OK (dict_set deployment_objects name deployment_object,
        if truthy (or_default dependencies YNull)
        then dict_set deployment_dependencies name (or_default dependencies YNull)
        else deployment_dependencies).

Fixpoint read_entities (module : module_entry) (variables : VariableContainer)
    (config_helper : ConfigHelper) (entities : list (string * yaml))
    (state : entities_state) : result entities_state :=
  match entities with
  | [] => OK state
  | (name, entity_config) :: rest =>
      state' <- read_entity module variables config_helper state name entity_config ;;
      read_entities module variables config_helper rest state'
  end.

(** The body of the outer loop of [_read_config_entities]. *)
Definition read_section (modules : dict module_entry) (variables : VariableContainer)
    (config_helper : ConfigHelper) (state : entities_state)
    (name : string) (entity_config : yaml) : result entities_state :=
  if reserved name then OK state
  else
    module <- lookup_module modules entity_config ;;
    entities <-
      match module.(preprocesser) with
      | Some preprocess_config_func =>
          preprocess_config_func name entity_config config_helper
      | None => OK [(name, entity_config)]
      end ;;
    read_entities module variables config_helper entities state.

Fixpoint read_sections (modules : dict module_entry) (variables : VariableContainer)
    (config_helper : ConfigHelper) (items : dict yaml) (state : entities_state)
    : result entities_state :=
  match items with
  | [] => OK state
  | (name, entity_config) :: rest =>
      state' <- read_section modules variables config_helper state name entity_config ;;
      read_sections modules variables config_helper rest state'
  end.

Definition _read_config_entities (modules : dict module_entry)
    (variables : VariableContainer) (config : dict yaml)
    (config_helper : ConfigHelper)
    : result (dict obj * dict (list dependency_triple)) :=
  ' (deployment_objects, deployment_dependencies) <-
      read_sections modules variables config_helper config ([], []) ;;
  dependencies <- _build_dependency_tree deployment_dependencies deployment_objects ;;
  OK (deployment_objects, dependencies).

(** *** Modules *)

Definition modules_state : Type :=
  (dict manager * dict module_entry * list string)%type.

(** The body of the loop of [_init_modules]; the third component of the
    state is [sys.path]. *)
Definition init_module (state : modules_state) (module_path : yaml)
    : result modules_state :=
  let '(managers, modules, sys_path) := state in
  module_path <- as_str module_path ;;
  ' (sys_path, module_path) <-
      (if (0 <? count_char ":" module_path)%nat
       then ' (base_path, module_path) <- unpack2 (split ":" module_path) ;;
            OK (base_path :: sys_path, module_path)
       else OK (sys_path, module_path)) ;;
  module <- import_module sys_path module_path ;;
  OK (dict_set managers module.(__config__) module.(__manager__),
      dict_set modules module.(__config_name__)
        {| parser := module.(parse_config);
           preprocesser := module.(preprocess_config) |},
      sys_path).

Fixpoint init_modules_loop (module_paths : list yaml) (state : modules_state)
    : result modules_state :=
  match module_paths with
  | [] => OK state
  | module_path :: rest =>
      state' <- init_module state module_path ;;
      init_modules_loop rest state'
  end.

(** [STANDARD_MODULES + additional_modules] needs a list on the right. *)
Definition _init_modules (sys_path : list string) (additional_modules : yaml)
    : result modules_state :=
  match additional_modules with
  | YList l => init_modules_loop (map YStr STANDARD_MODULES ++ l) ([], [], sys_path)
  | _ => Raise TypeError
  end.

(** *** Loading *)

(** The inner loop of the include merge of [read_config]. *)
Fixpoint merge_include (include : string) (items : dict yaml) (config : dict yaml)
    : result (dict yaml) :=
  match items with
  | [] => OK config
  | (key, values) :: rest =>
      if dict_has config key
      then Raise (ConfigurationException
                    (key ++ " found in base config and include file " ++ include))
      else merge_include include rest (dict_set config key values)
  end.

Fixpoint merge_includes (base_path : string) (includes : list yaml)
    (config : dict yaml) : result (dict yaml) :=
  match includes with
  | [] => OK config
  | include :: rest =>
      include <- as_str include ;;
      additional_configs <- read_yaml (abspath (path_join base_path include)) ;;
      items <- yaml_items additional_configs ;;
      config' <- merge_include include items config ;;
      merge_includes base_path rest config'
  end.

(** [read_config] up to its comment [# init managers]: the variable
    container and the config after the includes are merged.  The first
    use of [config] is [config.get], which only a dict has. *)
Definition read_config_documents (environ : dict string) (filename : string)
    (provided_variables : dict yaml)
    : result (VariableContainer * ConfigHelper * dict yaml) :=
  let abspath_ := abspath filename in
  let base_path := dirname abspath_ in
  config <- read_yaml abspath_ ;;
  config <- yaml_items config ;;
  variables <- _read_variables environ (get_default config "variables" (YMap []))
                 provided_variables ;;
  let config_helper :=
    {| variables_container := variables; base_path := base_path |} in
  includes <- py_iter (get_default config "includes" (YList [])) ;;
  config <- merge_includes base_path includes config ;;
  OK (variables, config_helper, config).

(** [sys.path] is process state: it comes in as an argument, and the
    changes [_init_modules] makes to it are not part of the result. *)
Definition read_config (sys_path : list string) (environ : dict string)
    (filename : string) (provided_variables : dict yaml)
    : result (dict obj * dict (list dependency_triple) * dict manager) :=
  ' (variables, config_helper, config) <-
      read_config_documents environ filename provided_variables ;;
  let additional_modules := get_default config "modules" (YList []) in
  ' (managers, modules, _) <- _init_modules sys_path additional_modules ;;
  ' (deployment_objects, dependencies) <-
      _read_config_entities modules variables config config_helper ;;
  OK (deployment_objects, dependencies, managers).

End Program.

(** ** The file readers of ConfigHelper *)

Section Readers.

(** Reading a text file ([open(path).read()]) and the decoders
    [yaml.load] and [json.loads] come from outside. *)
Variable pystache_render : string -> dict yaml -> result string.
Variable open_read : string -> result string.
Variables yaml_load json_loads : string -> result yaml.
Variables abspath : string -> string.
Variable path_join : string -> string -> string.

Definition ConfigHelper_read_file (self : ConfigHelper) (filename : string)
    (render_variables : bool) : result string :=
  let filepath := ConfigHelper_abspath abspath path_join self filename in
  data <- open_read filepath ;;
  if render_variables
  then render pystache_render self.(variables_container) data []
  else OK data.

(** [read_yaml] and [read_json] call [read_file] without passing
    [render_variables] on. *)
Definition ConfigHelper_read_yaml (self : ConfigHelper) (filename : string)
    (render_variables : bool) : result yaml :=
  data <- ConfigHelper_read_file self filename false ;;
  yaml_load data.

Definition ConfigHelper_read_json (self : ConfigHelper) (filename : string)
    (render_variables : bool) : result yaml :=
  data <- ConfigHelper_read_file self filename false ;;
  json_loads data.

End Readers.

(** ** The template engine

    [pystache] is a third-party library.  This is its default renderer
    ([pystache.render], that is [Renderer()] with [missing_tags='ignore'])
    on templates made of text and variable tags [{{key}}] with dot-free
    keys: a tag runs from [{{] to the first [}}] after at least one
    character and is replaced by the HTML-escaped [str] of the value of
    its key, by nothing when the context has no such key; an opening
    [{{] that is never closed stays in the text.  Sections, partials,
    comments, delimiter changes, unescaped tags and dotted names are
    outside this model. *)
Module Pystache.

(** The double quote has code 34. *)
Definition escape_char (c : ascii) : string :=
  if Ascii.eqb c (ascii_of_nat 34) then "&quot;"
  else match c with
       | "&"%char => "&amp;"
       | "<"%char => "&lt;"
       | ">"%char => "&gt;"
       | "'"%char => "&#x27;"
       | _ => String c EmptyString
       end.

Fixpoint escape (s : string) : string :=
  match s with
  | EmptyString => EmptyString
  | String c r => escape_char c ++ escape r
  end.

(** Space, tab, line feed, vertical tab, form feed, carriage return. *)
Definition is_space (c : ascii) : bool :=
  let n := nat_of_ascii c in
  Nat.eqb n 32 || ((9 <=? n)%nat && (n <=? 13)%nat).

Fixpoint lstrip (s : string) : string :=
  match s with
  | String c r => if is_space c then lstrip r else s
  | EmptyString => EmptyString
  end.

Fixpoint rstrip (s : string) : string :=
  match s with
  | EmptyString => EmptyString
  | String c r =>
      match rstrip r with
      | EmptyString => if is_space c then EmptyString else String c EmptyString
      | r' => String c r'
      end
  end.

Section Render.

Variable to_str : yaml -> string.
Variable context : dict yaml.

Definition tag_value (key : string) : string :=
  match dict_get context (lstrip (rstrip key)) with
  | Some v => escape (to_str v)
  | None => ""
  end.

Fixpoint render_text (s : string) : string :=
  match s with
  | String "{" (String "{" r) => render_tag r ""
  | String c r => String c (render_text r)
  | EmptyString => EmptyString
  end
with render_tag (s : string) (key : string) : string :=
  match s with
  | EmptyString => "{{" ++ key
  | String c t =>
      match c, t, key with
      | "}"%char, String "}" r, String _ _ => tag_value key ++ render_text r
      | _, _, _ => render_tag t (key ++ String c EmptyString)
      end
  end.

End Render.

Definition render (to_str : yaml -> string) (template : string)
    (context : dict yaml) : result string :=
  OK (render_text to_str context template).

End Pystache.

(** ** A small installation

    Concrete values for what the program takes from outside, to run it:
    deployment objects are the entity configs themselves, every module
    path but ["missing"] can be imported and gives a module named after
    the last segment of its path, and the files are those of [files]. *)
Module Sample.

Definition container_str (v : yaml) : string := "<container>".

Definition render := render (Pystache.render (py_str container_str)).

Definition last_segment (module_path : string) : string :=
  match rsplit1 "." module_path with
  | Some (_, name) => name
  | None => module_path
  end.

Definition import_module (sys_path : list string) (module_path : string)
    : result (PyModule yaml string) :=
  if String.eqb module_path "missing" then Raise (ImportError module_path)
  else OK {| __config__ := last_segment module_path;
             __manager__ := module_path;
             __config_name__ := last_segment module_path;
             parse_config := fun _ entity_config _ => OK entity_config;
             preprocess_config := None |}.

Definition read_files (files : dict yaml) (path : string) : result yaml :=
  match dict_get files path with
  | Some document => OK document
  | None => Raise (IOError path)
  end.

Definition abspath (path : string) : string := path.
Definition dirname (path : string) : string := "".
Definition path_join (a b : string) : string := a ++ b.

Definition read_config (files : dict yaml) :=
  read_config container_str ascii_upper truthy import_module (read_files files)
    abspath dirname path_join [].

Definition read_config_documents (files : dict yaml) :=
  read_config_documents container_str ascii_upper (read_files files) abspath dirname path_join.

Definition modules : dict (module_entry yaml) :=
  [("apps", {| parser := fun _ entity_config _ => OK entity_config;
               preprocesser := None |})].

Definition helper (variables : dict yaml) : ConfigHelper :=
  {| variables_container := {| variables := variables |}; base_path := "" |}.

(** What [_init_modules] builds from the standard modules. *)
Definition standard : modules_state yaml string :=
  match _init_modules import_module [] (YList []) with
  | OK state => state
  | Raise _ => ([], [], [])
  end.

Definition standard_managers : dict string := fst (fst standard).
Definition standard_modules : dict (module_entry yaml) := snd (fst standard).

Definition db : yaml := YMap [("type", YStr "apps")].

Definition web : yaml :=
  YMap [("type", YStr "apps");
        ("dependencies", YList [YStr "db:update"; YStr "db"])].

(** A document whose entity [web] depends on [db]. *)
Definition with_db : dict yaml := [("db", db); ("web", web)].

(** A document whose entity [web] depends on a [db] that is not there. *)
Definition without_db : dict yaml := [("web", web)].

(** A root document and an include that both declare [jobs]. *)
Definition twice_jobs : dict yaml :=
  [("dcos.yml", YMap [("includes", YList [YStr "more.yml"]);
                      ("jobs", YMap [("type", YStr "jobs")])]);
   ("more.yml", YMap [("jobs", YMap [("type", YStr "jobs")])])].

(** A module whose preprocessor gives every section twice: as it is,
    and stripped to its [type]. *)
Definition twice (name : string) (entity_config : yaml) (helper : ConfigHelper)
    : result (list (string * yaml)) :=
  OK [(name, entity_config); (name, YMap [("type", YStr "apps")])].

Definition fan_out : dict (module_entry yaml) :=
  [("apps", {| parser := fun _ entity_config _ => OK entity_config;
               preprocesser := Some twice |})].

(** A root document whose two includes both declare [jobs]. *)
Definition two_includes : dict yaml :=
  [("dcos.yml", YMap [("includes", YList [YStr "a.yml"; YStr "b.yml"])]);
   ("a.yml", YMap [("jobs", YMap [("type", YStr "jobs")])]);
   ("b.yml", YMap [("jobs", YMap [("type", YStr "jobs")])])].

(** A root document without variables and an include with a
    [variables] section whose variable is required and has no value. *)
Definition included_variables : dict yaml :=
  [("dcos.yml", YMap [("includes", YList [YStr "vars.yml"]); ("db", db)]);
   ("vars.yml", YMap [("variables", YMap [("token", YMap [("required", YBool true)])])])].

(** Declarations and provided variables to resolve. *)
Definition declared : dict yaml :=
  [("env", YMap [("required", YBool true); ("default", YStr "dev");
                 ("values", YList [YStr "dev"; YStr "prod"])])].

Definition overrides : dict yaml := [("env", YStr "prod"); ("team", YStr "ops")].

Definition resolved : VariableContainer := {| variables := overrides |}.

(** A text file with a placeholder, and decoders that know one text. *)
Definition texts : dict string := [("app.json", "{{image}}")].

Definition open_read (path : string) : result string :=
  match dict_get texts path with
  | Some data => OK data
  | None => Raise (IOError path)
  end.

Definition decode (data : string) : result yaml := OK (YStr data).

End Sample.

(** ** Notions used to state the properties *)

(** The environment variable a declaration reads: the one its [from]
    names when that is a non-empty string, the derived one when [from]
    is missing or has a false truth value (such as the empty string). *)
Inductive env_name_of (upper : string -> string) (name : string)
    (config : dict yaml) : string -> Prop :=
| env_name_from : forall f,
    dict_get config "from" = Some (YStr f) -> f <> "" ->
    env_name_of upper name config f
| env_name_derived_absent :
    dict_get config "from" = None ->
    env_name_of upper name config (derived_env_name upper name)
| env_name_derived_falsy : forall f,
    dict_get config "from" = Some f -> truthy f = false ->
    env_name_of upper name config (derived_env_name upper name).

(** First-match-wins resolution read literally: the derived environment
    name is used only when [from] is absent. *)
Definition first_match_value (upper : string -> string)
    (environ : dict string) (name : string)
    (config : dict yaml) (provided_variables : dict yaml) : yaml :=
  match dict_get provided_variables name with
  | Some v => v
  | None =>
      let from_environment :=
        match dict_get config "from" with
        | Some (YStr f) => dict_get environ f
        | Some _ => None
        | None => dict_get environ (derived_env_name upper name)
        end in
      match from_environment with
      | Some s => YStr s
      | None => get_default config "default" YNull
      end
  end.

(** [required] as the required check reads it. *)
Definition is_required (config : dict yaml) : bool :=
  truthy (get_default config "required" (YBool false)).

(** The dependency list an entity config declares. *)
Definition declared_dependencies (entity_config : yaml) : yaml :=
  match entity_config with
  | YMap m => get_default m "dependencies" YNull
  | _ => YNull
  end.

(** An entity passes the conditions: its config is a dict whose [only]
    and [except] restrictions do not ask to skip it. *)
Definition entity_kept (variables : VariableContainer)
    (entity : string * yaml) : bool :=
  match snd entity with
  | YMap m =>
      match _check_conditions_apply variables
              (get_default m "only" (YMap [])) (get_default m "except" (YMap []))
      with
      | OK false => true
      | _ => false
      end
  | _ => false
  end.

(** The entities a section of the document stands for: none for the
    reserved keys, the pairs its preprocessor returns, or the section
    itself when its module has no preprocessor. *)
Definition section_entities {obj : Type} (modules : dict (module_entry obj))
    (config_helper : ConfigHelper) (section : string * yaml)
    : list (string * yaml) :=
  let (name, entity_config) := section in
  if reserved name then []
  else match lookup_module modules entity_config with
       | OK module =>
           match module.(preprocesser) with
           | Some preprocess_config_func =>
               match preprocess_config_func name entity_config config_helper with
               | OK entities => entities
               | Raise _ => []
               end
           | None => [(name, entity_config)]
           end
       | Raise _ => []
       end.

(** The entities of a document that reach the parser, in order. *)
Definition kept_entities {obj : Type} (modules : dict (module_entry obj))
    (variables : VariableContainer) (config_helper : ConfigHelper)
    (config : dict yaml) : list (string * yaml) :=
  filter (entity_kept variables)
    (flat_map (section_entities modules config_helper) config).

(** The raw dependency lists recorded while a list of entities is read. *)
Definition recorded (variables : VariableContainer)
    (entities : list (string * yaml)) (dependencies : dict yaml) : dict yaml :=
  fold_left
    (fun d entity =>
       if entity_kept variables entity
          && truthy (declared_dependencies (snd entity))
       then dict_set d (fst entity) (declared_dependencies (snd entity))
       else d)
    entities dependencies.

(** A triple of the graph resolves a raw dependency: the raw dependency
    is a string that splits into the triple's name and kind, and the
    triple's object is the deployment object of that name. *)
Definition resolves {obj : Type} (deployment_objects : dict obj)
    (dependency : yaml) (triple : dependency_triple obj) : Prop :=
  let '(name, object, kind) := triple in
  exists raw, dependency = YStr raw /\
              split_dependency raw = OK (name, kind) /\
              dict_get deployment_objects name = Some object.

(** Every character of a string passes a test. *)
Fixpoint string_all (test : ascii -> bool) (s : string) : bool :=
  match s with
  | EmptyString => true
  | String c r => test c && string_all test r
  end.

(** A text of ASCII characters: every byte is below 128. *)
Definition is_ascii (s : string) : bool :=
  string_all (fun c => (nat_of_ascii c <? 128)%nat) s.

(** Some entity of a list has the given name. *)
Definition named (name : string) (entities : list (string * yaml)) : bool :=
  existsb (fun entity => String.eqb (fst entity) name) entities.

(** What [_init_modules] records for an imported module. *)
Definition register {obj manager : Type} (module : PyModule obj manager)
    (managers : dict manager) (modules : dict (module_entry obj))
    : dict manager * dict (module_entry obj) :=
  (dict_set managers module.(__config__) module.(__manager__),
   dict_set modules module.(__config_name__)
     {| parser := module.(parse_config);
        preprocesser := module.(preprocess_config) |}).

(** An entry of [includes] is a path whose file reads as a map with
    the given items. *)
Definition reads_as (read_yaml : string -> result yaml)
    (abspath : string -> string) (path_join : string -> string -> string)
    (base_path : string) (include : yaml) (items : dict yaml) : Prop :=
  exists path, include = YStr path /\
    read_yaml (abspath (path_join base_path path)) = OK (YMap items).

(** ** Dictionaries and strings *)

Lemma dict_get_set_same {V : Type} (d : dict V) (k : string) (v : V) :
  dict_get (dict_set d k v) k = Some v.
Proof.
  induction d as [|[k' v'] d IH]; simpl.
  - now rewrite String.eqb_refl.
  - destruct (String.eqb k' k) eqn:E; simpl; rewrite E; auto.
Qed.

Lemma dict_get_set_other {V : Type} (d : dict V) (k k' : string) (v : V) :
  k <> k' -> dict_get (dict_set d k v) k' = dict_get d k'.
Proof.
  intros Hne. induction d as [|[k0 v0] d IH]; simpl.
  - destruct (String.eqb k k') eqn:E; auto.
    apply String.eqb_eq in E. contradiction.
  - destruct (String.eqb k0 k) eqn:E; simpl.
    + apply String.eqb_eq in E. subst k0.
      destruct (String.eqb k k') eqn:E'; auto.
      apply String.eqb_eq in E'. contradiction.
    + now rewrite IH.
Qed.

Lemma dict_has_set {V : Type} (d : dict V) (k k' : string) (v : V) :
  dict_has (dict_set d k v) k' = String.eqb k k' || dict_has d k'.
Proof.
  unfold dict_has. destruct (String.eqb k k') eqn:E.
  - apply String.eqb_eq in E. subst. now rewrite dict_get_set_same.
  - rewrite dict_get_set_other; auto. now apply String.eqb_neq.
Qed.

Lemma dict_set_fresh {V : Type} (d : dict V) (k : string) (v : V) :
  dict_has d k = false -> dict_set d k v = d ++ [(k, v)].
Proof.
  unfold dict_has. induction d as [|[k' v'] d IH]; simpl; auto.
  destruct (String.eqb k' k); [discriminate|].
  intros H. now rewrite IH.
Qed.

Lemma dict_get_app {V : Type} (a b : dict V) (k : string) :
  dict_get (a ++ b) k =
  match dict_get a k with Some v => Some v | None => dict_get b k end.
Proof.
  induction a as [|[k' v'] a IH]; simpl; auto.
  destruct (String.eqb k' k); auto.
Qed.

Lemma dict_has_app {V : Type} (a b : dict V) (k : string) :
  dict_has (a ++ b) k = dict_has a k || dict_has b k.
Proof.
  unfold dict_has. rewrite dict_get_app. destruct (dict_get a k); auto.
Qed.

Lemma dict_get_In {V : Type} (d : dict V) (k : string) (v : V) :
  dict_get d k = Some v -> In (k, v) d.
Proof.
  induction d as [|[k' v'] d IH]; simpl; [discriminate|].
  destruct (String.eqb k' k) eqn:E.
  - apply String.eqb_eq in E. intros [= ->]. subst. now left.
  - auto.
Qed.

Lemma dict_has_In {V : Type} (d : dict V) (k : string) :
  dict_has d k = true <-> In k (keys d).
Proof.
  unfold dict_has, keys. induction d as [|[k' v'] d IH]; simpl.
  - split; [discriminate | tauto].
  - destruct (String.eqb k' k) eqn:E.
    + apply String.eqb_eq in E. tauto.
    + apply String.eqb_neq in E. rewrite IH. split; [tauto|].
      intros [H|H]; [contradiction | assumption].
Qed.

Lemma bind_OK {A B : Type} (c : result A) (k : A -> result B) (b : B) :
  bind c k = OK b -> exists a, c = OK a /\ k a = OK b.
Proof. destruct c; simpl; [eauto | discriminate]. Qed.

Lemma all_str_strings (l : list string) : all_str (map YStr l) = OK l.
Proof. induction l; simpl; auto. now rewrite IHl. Qed.

(** ** Variable resolution *)

(** C1 (as amended).  The value of a declared variable is the first of:
    the value the caller provides for that name; the value of the
    environment variable named by [from], or by the derived name
    ["VAR_" + name.replace("-", "_").upper()] when [from] is absent or
    empty; the declared [default]; [None].  A [from] with a true truth
    value that is not a string, and a declaration that is not a map,
    raise instead when the caller provides no value.  These cases
    cover every declaration. *)
Theorem calculate_variable_value_first_match (upper : string -> string)
    (environ : dict string) (name : string) (config provided : dict yaml) :
  (forall declaration v, dict_get provided name = Some v ->
     _calculate_variable_value upper environ name declaration provided = OK v) /\
  (forall env_name, dict_get provided name = None ->
     env_name_of upper name config env_name ->
     _calculate_variable_value upper environ name (YMap config) provided =
     OK match dict_get environ env_name with
        | Some s => YStr s
        | None => match dict_get config "default" with
                  | Some d => d
                  | None => YNull
                  end
        end) /\
  (forall f, dict_get provided name = None ->
     dict_get config "from" = Some f -> truthy f = true ->
     (forall s, f <> YStr s) ->
     _calculate_variable_value upper environ name (YMap config) provided =
     Raise TypeError) /\
  (forall declaration, dict_get provided name = None ->
     (forall m, declaration <> YMap m) ->
     _calculate_variable_value upper environ name declaration provided =
     Raise TypeError) /\
  ((exists env_name, env_name_of upper name config env_name) \/
   (exists f, dict_get config "from" = Some f /\ truthy f = true /\
              forall s, f <> YStr s)).
Proof.
  unfold _calculate_variable_value. split; [|split; [|split; [|split]]].
  - intros declaration v ->. reflexivity.
  - intros env_name -> Henv. simpl.
    assert (Hname :
      match dict_get config "from" with
      | Some f => if truthy f then as_str f else OK (derived_env_name upper name)
      | None => OK (derived_env_name upper name)
      end = OK env_name).
    { destruct Henv as [f Hf Hne | Hf | f Hf Hfalse]; rewrite Hf; simpl.
      - apply String.eqb_neq in Hne. now rewrite Hne.
      - reflexivity.
      - now rewrite Hfalse. }
    rewrite Hname. simpl.
    destruct (dict_get environ env_name); [reflexivity|].
    unfold dict_has. destruct (dict_get config "default"); reflexivity.
  - intros f -> Hf Htruthy Hshape. cbn [yaml_get bind].
    rewrite Hf, Htruthy.
    destruct f as [| | |s| |]; try reflexivity. now destruct (Hshape s).
  - intros declaration -> Hshape.
    destruct declaration as [| | | | |m]; try reflexivity.
    now destruct (Hshape m).
  - destruct (dict_get config "from") as [f|] eqn:Hf.
    + destruct (truthy f) eqn:Htruthy.
      * destruct f as [| | |s| |];
          try (right; eexists; split;
               [reflexivity | split; [exact Htruthy | discriminate]]).
        left. exists s. apply env_name_from; [exact Hf|].
        intros ->. discriminate Htruthy.
      * left. eexists. eapply env_name_derived_falsy; eauto.
    + left. eexists. now apply env_name_derived_absent.
Qed.

Lemma calculate_variable_value_first_match_witness :
  _calculate_variable_value ascii_upper [("REGION", "eu-west")] "region"
    (YMap [("from", YStr "REGION"); ("default", YStr "us-east")]) []
  = OK (YStr "eu-west") /\
  _calculate_variable_value ascii_upper [("REGION", "eu-west")] "region"
    (YMap [("from", YStr "REGION"); ("default", YStr "us-east")])
    [("region", YStr "ap-south")]
  = OK (YStr "ap-south") /\
  _calculate_variable_value ascii_upper [] "region" (YMap [("from", YInt 5)]) []
  = Raise TypeError /\
  _calculate_variable_value ascii_upper [] "region" YNull [] = Raise TypeError.
Proof.
  split; [|split; [|split]].
  - apply (proj1 (proj2 (calculate_variable_value_first_match ascii_upper
                           [("REGION", "eu-west")] "region"
                           [("from", YStr "REGION"); ("default", YStr "us-east")]
                           []))
             "REGION").
    + reflexivity.
    + apply env_name_from; [reflexivity | discriminate].
  - apply (proj1 (calculate_variable_value_first_match ascii_upper
                    [("REGION", "eu-west")] "region" []
                    [("region", YStr "ap-south")])).
    reflexivity.
  - apply (proj1 (proj2 (proj2 (calculate_variable_value_first_match ascii_upper
                                  [] "region" [("from", YInt 5)] [])))
             (YInt 5)); try reflexivity.
    discriminate.
  - apply (proj1 (proj2 (proj2 (proj2 (calculate_variable_value_first_match
                                         ascii_upper [] "region" [] []))))
             YNull); [reflexivity | discriminate].
Defined.

(** With an empty [from] the code reads the derived environment
    variable, where first-match-wins read literally gives the default. *)
Lemma calculate_variable_value_empty_from :
  _calculate_variable_value ascii_upper [("VAR_X", "e")] "x"
    (YMap [("from", YStr ""); ("default", YStr "d")]) [] = OK (YStr "e") /\
  first_match_value ascii_upper [("VAR_X", "e")] "x"
    [("from", YStr ""); ("default", YStr "d")] [] = YStr "d" /\
  _calculate_variable_value ascii_upper [("VAR_X", "e")] "x"
    (YMap [("from", YStr ""); ("default", YStr "d")]) [] <>
  OK (first_match_value ascii_upper [("VAR_X", "e")] "x"
        [("from", YStr ""); ("default", YStr "d")] []).
Proof. repeat split; try reflexivity. discriminate. Qed.

Lemma read_declared_app (container_str : yaml -> string) (upper : string -> string) (environ : dict string)
    (provided pre rest acc : dict yaml) :
  read_declared container_str upper environ provided (pre ++ rest) acc =
  (acc' <- read_declared container_str upper environ provided pre acc ;;
   read_declared container_str upper environ provided rest acc').
Proof.
  revert acc. induction pre as [|[name config] pre IH]; intros acc; simpl; auto.
  destruct (read_variable container_str upper environ provided name config); simpl; auto.
Qed.

(** The required check of one declaration. *)
Lemma read_variable_required (container_str : yaml -> string) (upper : string -> string)
    (environ : dict string) (provided : dict yaml) (name : string)
    (config : dict yaml) (value : yaml) :
  _calculate_variable_value upper environ name (YMap config) provided = OK value ->
  truthy value = false ->
  is_required config = true ->
  read_variable container_str upper environ provided name (YMap config) =
  Raise (ConfigurationException ("Missing required variable " ++ name)).
Proof.
  intros Hvalue Hfalsy Hreq. unfold read_variable.
  rewrite Hvalue. simpl. rewrite Hfalsy. simpl.
  unfold is_required, get_default in Hreq.
  destruct (dict_get config "required"); now rewrite Hreq.
Qed.

(** The allow-list check of one declaration whose allow-list is a list
    of strings. *)
Lemma read_variable_allowed_values (container_str : yaml -> string) (upper : string -> string)
    (environ : dict string) (provided : dict yaml) (name : string)
    (config : dict yaml) (value : yaml) (allowed : list string) :
  _calculate_variable_value upper environ name (YMap config) provided = OK value ->
  truthy value = true \/ is_required config = false ->
  dict_get config "values" = Some (YList (map YStr allowed)) ->
  read_variable container_str upper environ provided name (YMap config) =
  if list_contains (map YStr allowed) value then OK value
  else Raise (ConfigurationException
                ("Value '" ++ py_str container_str value ++ "' not allowed for "
                 ++ name ++ ". Possible values: " ++ join "," allowed)).
Proof.
  intros Hvalue Hreq Hvalues. unfold read_variable.
  rewrite Hvalue. cbn [bind yaml_get].
  assert (Hcheck :
    (if truthy value then OK false
     else OK (truthy match dict_get config "required" with
                     | Some x => x
                     | None => YBool false
                     end)) = OK false).
  { destruct (truthy value) eqn:Ht; [reflexivity|].
    destruct Hreq as [Hreq | Hreq]; [discriminate|].
    unfold is_required, get_default in Hreq.
    destruct (dict_get config "required"); now rewrite Hreq. }
  rewrite Hcheck. cbn [bind yaml_has_key yaml_index].
  unfold dict_has. rewrite Hvalues. cbn [bind py_in].
  destruct (list_contains (map YStr allowed) value); [reflexivity|].
  unfold py_join. cbn [py_iter bind]. now rewrite all_str_strings.
Qed.

(** C4.  A variable declared [required] whose computed value is absent
    or has a false truth value, the empty string included, makes the
    resolution raise a [ConfigurationException] that names the variable:
    the check of the declaration raises it, and so does
    [_read_variables] once the declarations before it are resolved. *)
Theorem required_variable_enforced (container_str : yaml -> string) (upper : string -> string)
    (environ : dict string) (provided : dict yaml) (name : string)
    (config : dict yaml) (value : yaml) :
  _calculate_variable_value upper environ name (YMap config) provided = OK value ->
  truthy value = false ->
  is_required config = true ->
  read_variable container_str upper environ provided name (YMap config) =
  Raise (ConfigurationException ("Missing required variable " ++ name)) /\
  forall (before after resolved : dict yaml),
    read_declared container_str upper environ provided before [] = OK resolved ->
    _read_variables container_str upper environ
      (YMap (before ++ (name, YMap config) :: after)) provided =
    Raise (ConfigurationException ("Missing required variable " ++ name)).
Proof.
  intros Hvalue Hfalsy Hreq.
  pose proof (read_variable_required container_str upper environ provided name config
                Hvalue Hfalsy Hreq) as Hone.
  split; [exact Hone|].
  intros before after resolved Hbefore.
  unfold _read_variables. simpl.
  rewrite read_declared_app, Hbefore. simpl. now rewrite Hone.
Qed.

Lemma required_variable_enforced_witness :
  _read_variables Sample.container_str ascii_upper []
    (YMap [("region", YMap [("default", YStr "us-east")]);
           ("token", YMap [("required", YBool true); ("default", YStr "")])]) []
  = Raise (ConfigurationException "Missing required variable token").
Proof.
  apply (proj2 (@required_variable_enforced Sample.container_str ascii_upper [] [] "token"
                  [("required", YBool true); ("default", YStr "")] (YStr "")
                  eq_refl eq_refl eq_refl)
           [("region", YMap [("default", YStr "us-east")])] []
           [("region", YStr "us-east")]).
  reflexivity.
Defined.

(** C8, at an allow-list of numbers.  The value [3] is not a member of
    [[1, 2]]; building the message joins the allowed values, which
    raises [TypeError] on the first number, so no
    [ConfigurationException] is raised. *)
Theorem allowed_values_of_numbers :
  _read_variables Sample.container_str ascii_upper []
    (YMap [("replicas", YMap [("default", YInt 3);
                              ("values", YList [YInt 1; YInt 2])])]) []
  = Raise TypeError /\
  _read_variables Sample.container_str ascii_upper [("VAR_REPLICAS", "3")]
    (YMap [("replicas", YMap [("values", YList [YInt 1; YInt 2; YInt 3])])]) []
  = Raise TypeError.
Proof. split; reflexivity. Qed.

(** ** Rendering *)

(** The check of [render] looks at the rendered text only. *)
Lemma render_checks_output
    (pystache_render : string -> dict yaml -> result string)
    (self : VariableContainer) (text out : string) :
  pystache_render text self.(variables) = OK out ->
  render pystache_render self text [] =
  if Nat.eqb (count_open out) 0 then OK out
  else Raise (ConfigurationException "Unresolved variable").
Proof.
  intros H. unfold render. rewrite H. simpl.
  now destruct (Nat.eqb (count_open out) 0).
Qed.

(** C3, on pystache's default renderer.  ["Hello {{name}}"] renders to
    ["Hello World"]; ["Hello {{missing}}"] against no variables renders
    to ["Hello "], because a missing key renders as nothing and no [{{]
    is left for the check to find; the check does raise when the
    rendered text has a [{{], here one that comes from a value. *)
Theorem render_hello :
  Sample.render {| variables := [("name", YStr "World")] |} "Hello {{name}}" []
  = OK "Hello World" /\
  Sample.render {| variables := [] |} "Hello {{missing}}" [] = OK "Hello " /\
  Sample.render {| variables := [("name", YStr "{{x}}")] |} "Hello {{name}}" []
  = Raise (ConfigurationException "Unresolved variable").
Proof. repeat split; reflexivity. Qed.

(** ** Conditions *)

Lemma only_fails_iff (variables : VariableContainer) (items : dict yaml) :
  only_fails variables items = true <->
  exists var expected, In (var, expected) items /\
    (has variables var = false \/ py_eq (get variables var) expected = false).
Proof.
  induction items as [|[var value] items IH]; simpl.
  - split; [discriminate | intros (? & ? & [] & _)].
  - destruct (has variables var) eqn:Hhas; simpl.
    + destruct (py_eq (get variables var) value) eqn:Heq; simpl.
      * rewrite IH. split.
        -- intros (v & e & Hin & H). exists v, e. auto.
        -- intros (v & e & [Hhead | Hin] & H).
           ++ injection Hhead as <- <-. destruct H; congruence.
           ++ exists v, e. auto.
      * split; [|reflexivity]. intros _. exists var, value. auto.
    + split; [|reflexivity]. intros _. exists var, value. auto.
Qed.

Lemma except_hits_iff (variables : VariableContainer) (items : dict yaml) :
  except_hits variables items = true <->
  exists var excluded, In (var, excluded) items /\
    has variables var = true /\ py_eq (get variables var) excluded = true.
Proof.
  induction items as [|[var value] items IH]; simpl.
  - split; [discriminate | intros (? & ? & [] & _)].
  - destruct (has variables var && py_eq (get variables var) value) eqn:Hhit.
    + split; [|reflexivity]. intros _. exists var, value.
      apply andb_true_iff in Hhit. tauto.
    + rewrite IH. split.
      * intros (v & e & Hin & H). exists v, e. auto.
      * intros (v & e & [Hhead | Hin] & H1 & H2).
        -- injection Hhead as <- <-. rewrite H1, H2 in Hhit. discriminate.
        -- exists v, e. auto.
Qed.

Lemma check_conditions_apply_maps (variables : VariableContainer)
    (only except : dict yaml) :
  _check_conditions_apply variables (YMap only) (YMap except) =
  OK (only_fails variables only || except_hits variables except).
Proof.
  unfold _check_conditions_apply.
  destruct only as [|o only].
  - destruct except as [|e except]; reflexivity.
  - cbn [truthy yaml_items bind].
    destruct (only_fails variables (o :: only)); [reflexivity|].
    destruct except as [|e except]; reflexivity.
Qed.

(** C5.  On an [only] map and an [except] map the evaluator returns
    skip = [True] exactly when some entry of [only] names a variable
    that is undeclared or whose value differs from the expected one, or
    some entry of [except] names a declared variable whose value equals
    the excluded one; with both maps empty it returns [False]. *)
Theorem check_conditions_apply_skip (variables : VariableContainer)
    (only except : dict yaml) :
  (exists skip,
     _check_conditions_apply variables (YMap only) (YMap except) = OK skip /\
     (skip = true <->
      (exists var expected, In (var, expected) only /\
         (has variables var = false \/
          py_eq (get variables var) expected = false)) \/
      (exists var excluded, In (var, excluded) except /\
         has variables var = true /\
         py_eq (get variables var) excluded = true))) /\
  _check_conditions_apply variables (YMap []) (YMap []) = OK false.
Proof.
  split; [|reflexivity].
  exists (only_fails variables only || except_hits variables except).
  split; [apply check_conditions_apply_maps|].
  rewrite orb_true_iff, only_fails_iff, except_hits_iff. reflexivity.
Qed.

(** ** Dependencies *)

Lemma rsplit1_none (c : ascii) (s : string) :
  rsplit1 c s = None <-> count_char c s = 0%nat.
Proof.
  induction s as [|d r IH]; simpl.
  - tauto.
  - destruct (rsplit1 c r) as [[a b]|].
    + split; [discriminate|]. intros H.
      assert (count_char c r = 0%nat) as H0 by lia.
      apply IH in H0. discriminate.
    + destruct (Ascii.eqb d c).
      * split; [discriminate | lia].
      * simpl. tauto.
Qed.

Lemma rsplit1_some (c : ascii) (s a b : string) :
  rsplit1 c s = Some (a, b) ->
  s = (a ++ String c b)%string /\ count_char c b = 0%nat.
Proof.
  revert a. induction s as [|d r IH]; simpl; intros a; [discriminate|].
  destruct (rsplit1 c r) as [[a' b']|] eqn:E.
  - intros [= <- <-]. destruct (IH a' eq_refl) as [-> H]. auto.
  - destruct (Ascii.eqb d c) eqn:Ed; [|discriminate].
    intros [= <- <-]. apply Ascii.eqb_eq in Ed. subst d.
    split; [reflexivity | now apply rsplit1_none].
Qed.

(** A raw dependency is cut at its last colon. *)
Lemma split_dependency_last_colon (dependency : string) :
  exists name kind,
    split_dependency dependency = OK (name, kind) /\
    ((count_char ":" dependency = 0%nat /\ name = dependency /\ kind = "create") \/
     (dependency = (name ++ ":" ++ kind)%string /\
      count_char ":" kind = 0%nat)).
Proof.
  unfold split_dependency, py_rsplit1.
  destruct (count_char ":" dependency) as [|n] eqn:Hcount.
  - exists dependency, "create". simpl. auto.
  - replace (0 <? S n)%nat with true by reflexivity.
    destruct (rsplit1 ":" dependency) as [[a b]|] eqn:E.
    + exists a, b. split; [reflexivity|]. right.
      now apply rsplit1_some in E.
    + apply rsplit1_none in E. lia.
Qed.

Section Dependencies.

Variable obj : Type.
Variable obj_truthy : obj -> bool.

Lemma resolve_dependency_dangling (config : dict obj)
    (dependency name kind : string) :
  split_dependency dependency = OK (name, kind) ->
  dict_get config name = None ->
  resolve_dependency obj_truthy config (YStr dependency) =
  Raise (Exception ("Could not find " ++ name)).
Proof.
  intros Hsplit Hget. unfold resolve_dependency. simpl.
  rewrite Hsplit. simpl. now rewrite Hget.
Qed.

Lemma resolve_all_fails (config : dict obj) (raw : list yaml) (x : yaml) :
  In x raw ->
  fails (resolve_dependency obj_truthy config x) ->
  fails (resolve_all obj_truthy config raw).
Proof.
  induction raw as [|y raw IH]; simpl; [tauto|].
  intros [-> | Hin] Hx.
  - destruct Hx as [e ->]. exists e. reflexivity.
  - destruct (resolve_dependency obj_truthy config y); simpl.
    + destruct (IH Hin Hx) as [e ->]. exists e. reflexivity.
    + eexists. reflexivity.
Qed.

Lemma build_entries_fails (config : dict obj) (items : dict yaml)
    (acc : dict (list (dependency_triple obj)))
    (name : string) (string_dependencies : yaml) (raw : list yaml) (x : yaml) :
  In (name, string_dependencies) items ->
  py_iter string_dependencies = OK raw ->
  In x raw ->
  fails (resolve_dependency obj_truthy config x) ->
  fails (build_entries obj_truthy config items acc).
Proof.
  intros Hin Hiter Hx Hfail. revert acc.
  induction items as [|[n sd] items IH]; intros acc; simpl; [destruct Hin|].
  destruct Hin as [[= -> ->] | Hin].
  - rewrite Hiter. simpl.
    destruct (resolve_all_fails config raw x Hx Hfail) as [e ->].
    exists e. reflexivity.
  - destruct (py_iter sd); simpl; [|eexists; reflexivity].
    destruct (resolve_all obj_truthy config a); simpl; [|eexists; reflexivity].
    now apply IH.
Qed.

End Dependencies.

(** ** Includes *)

(** A merge that succeeds appends the included items. *)
Lemma merge_include_appends (include : string) (items config config' : dict yaml) :
  merge_include include items config = OK config' -> config' = config ++ items.
Proof.
  revert config. induction items as [|[key values] items IH]; intros config; simpl.
  - intros [= <-]. now rewrite app_nil_r.
  - destruct (dict_has config key) eqn:Hhas; [discriminate|].
    intros H. apply IH in H. subst config'.
    rewrite (dict_set_fresh _ _ _ Hhas), <- app_assoc. reflexivity.
Qed.

Lemma merge_include_fresh (include : string) (items config : dict yaml) :
  NoDup (keys items) ->
  (forall k, In k (keys items) -> dict_has config k = false) ->
  merge_include include items config = OK (config ++ items).
Proof.
  revert config. induction items as [|[key values] items IH]; intros config; simpl.
  - intros _ _. now rewrite app_nil_r.
  - intros Hnodup Hfresh. inversion Hnodup as [|? ? Hnotin Hnodup']; subst.
    rewrite (Hfresh key (or_introl eq_refl)).
    rewrite IH; auto.
    + rewrite (dict_set_fresh _ _ _ (Hfresh key (or_introl eq_refl))).
      now rewrite <- app_assoc.
    + intros k Hk. rewrite dict_has_set, (Hfresh k (or_intror Hk)).
      destruct (String.eqb key k) eqn:E; auto.
      apply String.eqb_eq in E. subst. contradiction.
Qed.

(** A merge that fails raises the [ConfigurationException] of a key of
    the included document; that key is in the config when the keys of
    the included document are distinct. *)
Lemma merge_include_raises (include : string) (items config : dict yaml) (e : exn) :
  merge_include include items config = Raise e ->
  exists key,
    In key (keys items) /\
    (NoDup (keys items) -> dict_has config key = true) /\
    e = ConfigurationException
          (key ++ " found in base config and include file " ++ include).
Proof.
  revert config. induction items as [|[key values] items IH]; intros config; simpl.
  - discriminate.
  - destruct (dict_has config key) eqn:Hhas.
    + intros [= <-]. exists key. auto.
    + intros H. destruct (IH _ H) as (key' & Hin & Hdup & He).
      exists key'. split; [auto|]. split; [|exact He].
      intros Hnodup. inversion Hnodup as [|? ? Hnotin Hnodup']; subst.
      specialize (Hdup Hnodup'). rewrite dict_has_set in Hdup.
      destruct (String.eqb key key') eqn:E; auto.
      apply String.eqb_eq in E. subst. contradiction.
Qed.

Lemma merge_include_collides (include : string) (items config : dict yaml)
    (k : string) :
  In k (keys items) -> dict_has config k = true ->
  fails (merge_include include items config).
Proof.
  revert config. induction items as [|[key values] items IH]; intros config; simpl.
  - tauto.
  - intros Hin Hhas. destruct (dict_has config key) eqn:Hkey.
    + eexists. reflexivity.
    + apply IH.
      * destruct Hin as [-> | Hin]; [congruence | exact Hin].
      * rewrite dict_has_set, Hhas. apply orb_true_r.
Qed.

(** What a colliding include raises. *)
Lemma merge_include_collision (include : string) (items config : dict yaml)
    (k : string) :
  In k (keys items) -> dict_has config k = true ->
  exists key,
    In key (keys items) /\
    (NoDup (keys items) -> dict_has config key = true) /\
    merge_include include items config =
    Raise (ConfigurationException
             (key ++ " found in base config and include file " ++ include)).
Proof.
  intros Hin Hhas.
  destruct (merge_include_collides include items config k Hin Hhas) as [e He].
  destruct (merge_include_raises _ _ _ He) as (key & H1 & H2 & ->).
  exists key. auto.
Qed.

Lemma keys_app {V : Type} (a b : dict V) : keys (a ++ b) = keys a ++ keys b.
Proof. apply map_app. Qed.

Lemma NoDup_app_parts {A : Type} (a b : list A) :
  NoDup (a ++ b) ->
  NoDup a /\ NoDup b /\ forall x, In x a -> ~ In x b.
Proof.
  induction a as [|y a IH]; simpl.
  - intros H. split; [constructor|]. split; [exact H | intros x []].
  - intros H. inversion H as [|? ? Hnotin Hrest]; subst.
    destruct (IH Hrest) as (Ha & Hb & Hdisjoint).
    split; [|split; [exact Hb|]].
    + constructor; [|exact Ha]. intros Hy. apply Hnotin.
      apply in_or_app. now left.
    + intros x [<- | Hx] Hxb.
      * apply Hnotin. apply in_or_app. now right.
      * now apply (Hdisjoint x).
Qed.

Section Loading.

Variable container_str : yaml -> string.
Variable upper : string -> string.
Variables obj manager : Type.
Variable obj_truthy : obj -> bool.
Variable import_module : list string -> string -> result (PyModule obj manager).
Variable read_yaml : string -> result yaml.
Variables abspath dirname : string -> string.
Variable path_join : string -> string -> string.

Local Abbreviation merge_includes' :=
  (merge_includes read_yaml abspath path_join).
Local Abbreviation read_config_documents' :=
  (read_config_documents container_str upper read_yaml abspath dirname path_join).
Local Abbreviation read_config' :=
  (read_config container_str upper obj_truthy import_module read_yaml
     abspath dirname path_join).

Lemma merge_includes_app (base_path : string) (before after : list yaml)
    (config : dict yaml) :
  merge_includes' base_path (before ++ after) config =
  (config' <- merge_includes' base_path before config ;;
   merge_includes' base_path after config').
Proof.
  revert config. induction before as [|include before IH]; intros config; simpl; auto.
  destruct (as_str include); simpl; auto.
  destruct (read_yaml _); simpl; auto.
  destruct (yaml_items _); simpl; auto.
  destruct (merge_include _ _ _); simpl; auto.
Qed.

Lemma merge_includes_extends (base_path : string) (includes : list yaml)
    (config config' : dict yaml) :
  merge_includes' base_path includes config = OK config' ->
  exists added, config' = config ++ added.
Proof.
  revert config. induction includes as [|include includes IH]; intros config; simpl.
  - intros [= <-]. exists []. now rewrite app_nil_r.
  - intros H.
    apply bind_OK in H. destruct H as (inc & _ & H).
    apply bind_OK in H. destruct H as (doc & _ & H).
    apply bind_OK in H. destruct H as (items & _ & H).
    apply bind_OK in H. destruct H as (c1 & Hmerge & H).
    apply merge_include_appends in Hmerge. subst c1.
    destruct (IH _ H) as [added ->].
    exists (items ++ added). now rewrite app_assoc.
Qed.

(** The documents phase of a load, step by step. *)
Lemma read_config_documents_steps (environ : dict string) (filename : string)
    (provided root : dict yaml) (variables : VariableContainer)
    (includes : list yaml) :
  read_yaml (abspath filename) = OK (YMap root) ->
  _read_variables container_str upper environ
    (get_default root "variables" (YMap [])) provided = OK variables ->
  py_iter (get_default root "includes" (YList [])) = OK includes ->
  read_config_documents' environ filename provided =
  (config <- merge_includes' (dirname (abspath filename)) includes root ;;
   OK (variables,
       {| variables_container := variables;
          base_path := dirname (abspath filename) |},
       config)).
Proof.
  intros Hroot Hvars Hincludes. unfold read_config_documents.
  rewrite Hroot. cbn [bind yaml_items]. rewrite Hvars. cbn [bind].
  rewrite Hincludes. reflexivity.
Qed.

Lemma read_config_documents_raise (sys_path : list string)
    (environ : dict string) (filename : string) (provided : dict yaml) (e : exn) :
  read_config_documents' environ filename provided = Raise e ->
  read_config' sys_path environ filename provided = Raise e.
Proof. intros H. unfold read_config. now rewrite H. Qed.

(** Includes whose keys are new and pairwise distinct all merge. *)
Lemma merge_includes_fresh (base_path : string) (includes : list yaml)
    (documents : list (dict yaml)) (config : dict yaml) :
  Forall2 (reads_as read_yaml abspath path_join base_path) includes documents ->
  NoDup (keys (List.concat documents)) ->
  (forall k, In k (keys (List.concat documents)) -> dict_has config k = false) ->
  merge_includes' base_path includes config
  = OK (config ++ List.concat documents).
Proof.
  intros Hreads. revert config.
  induction Hreads as [|include items includes documents Hread _ IH];
    intros config Hnodup Hfresh.
  - simpl. now rewrite app_nil_r.
  - destruct Hread as (path & -> & Hread).
    cbn [List.concat] in *. rewrite keys_app in Hnodup, Hfresh.
    destruct (NoDup_app_parts _ _ Hnodup) as (Hitems & Hrest & Hdisjoint).
    cbn [merge_includes as_str bind]. rewrite Hread. cbn [yaml_items bind].
    rewrite (merge_include_fresh path items config Hitems)
      by (intros k Hk; apply Hfresh; apply in_or_app; now left).
    cbn [bind]. rewrite IH; [now rewrite app_assoc | exact Hrest |].
    intros k Hk. rewrite dict_has_app, orb_false_iff. split.
    + apply Hfresh. apply in_or_app. now right.
    + destruct (dict_has items k) eqn:E; [|reflexivity].
      apply dict_has_In in E. now destruct (Hdisjoint k E).
Qed.

(** C7.  An included document is merged key by key at the top level:
    when its keys are new, the config grows by its items in their
    order; when one of its keys is already in the accumulated config,
    the merge raises a [ConfigurationException] whose message names a
    colliding key and the include path as written.  The includes are
    merged in list order, each into the config accumulated so far: when
    all keys are new the result is the root config followed by the
    items of the includes in order, and a key of an earlier include
    collides in a later one.  The exception of a collision is what the
    load raises. *)
Theorem include_merge (include : string) (items config : dict yaml) :
  (NoDup (keys items) ->
   (forall k, In k (keys items) -> dict_has config k = false) ->
   merge_include include items config = OK (config ++ items)) /\
  (forall k, In k (keys items) -> dict_has config k = true ->
   exists key,
     In key (keys items) /\
     (NoDup (keys items) -> dict_has config key = true) /\
     let e := ConfigurationException
                (key ++ " found in base config and include file " ++ include) in
     merge_include include items config = Raise e /\
     forall base_path before after root,
       merge_includes' base_path before root = OK config ->
       read_yaml (abspath (path_join base_path include)) = OK (YMap items) ->
       merge_includes' base_path (before ++ YStr include :: after) root = Raise e /\
       forall sys_path environ filename provided variables,
         base_path = dirname (abspath filename) ->
         read_yaml (abspath filename) = OK (YMap root) ->
         _read_variables container_str upper environ
           (get_default root "variables" (YMap [])) provided = OK variables ->
         py_iter (get_default root "includes" (YList [])) =
           OK (before ++ YStr include :: after) ->
         read_config' sys_path environ filename provided = Raise e) /\
  (forall base_path includes documents root,
     Forall2 (reads_as read_yaml abspath path_join base_path) includes documents ->
     NoDup (keys (List.concat documents)) ->
     (forall k, In k (keys (List.concat documents)) -> dict_has root k = false) ->
     merge_includes' base_path includes root = OK (root ++ List.concat documents)) /\
  (forall base_path first second earlier later rest root key,
     read_yaml (abspath (path_join base_path first)) = OK (YMap earlier) ->
     read_yaml (abspath (path_join base_path second)) = OK (YMap later) ->
     NoDup (keys earlier) ->
     (forall k, In k (keys earlier) -> dict_has root k = false) ->
     In key (keys earlier) -> In key (keys later) ->
     exists key',
       In key' (keys later) /\
       merge_includes' base_path (YStr first :: YStr second :: rest) root =
       Raise (ConfigurationException
                (key' ++ " found in base config and include file " ++ second))).
Proof.
  split; [apply merge_include_fresh|]. split; [|split].
  - intros k Hin Hhas.
    destruct (merge_include_collision include items config k Hin Hhas)
      as (key & Hkey & Hdup & Hraise).
    exists key. split; [exact Hkey|]. split; [exact Hdup|].
    cbv zeta. split; [exact Hraise|].
    intros base_path before after root Hbefore Hread.
    assert (Hall : merge_includes' base_path (before ++ YStr include :: after) root
                   = Raise (ConfigurationException
                              (key ++ " found in base config and include file "
                               ++ include))).
    { rewrite merge_includes_app, Hbefore. cbn [bind merge_includes as_str].
      rewrite Hread. cbn [bind yaml_items]. now rewrite Hraise. }
    split; [exact Hall|].
    intros sys_path environ filename provided variables -> Hroot Hvars Hincludes.
    apply read_config_documents_raise.
    rewrite (@read_config_documents_steps _ _ _ _ _ _ Hroot Hvars Hincludes).
    now rewrite Hall.
  - apply merge_includes_fresh.
  - intros base_path first second earlier later rest root key
      Hfirst Hsecond Hnodup Hfresh Hearlier Hlater.
    cbn [merge_includes as_str bind]. rewrite Hfirst. cbn [yaml_items bind].
    rewrite (merge_include_fresh first earlier root Hnodup Hfresh).
    cbn [bind]. rewrite Hsecond. cbn [yaml_items bind].
    assert (Hhas : dict_has (root ++ earlier) key = true).
    { rewrite dict_has_app. apply orb_true_iff. right. now apply dict_has_In. }
    destruct (merge_include_collision second later (root ++ earlier) key
                Hlater Hhas) as (key' & Hkey' & _ & ->).
    exists key'. split; [exact Hkey' | reflexivity].
Qed.

End Loading.

(** ** The entity pipeline *)

Lemma keys_dict_set {V : Type} (d : dict V) (k : string) (v : V) :
  keys (dict_set d k v) = if dict_has d k then keys d else keys d ++ [k].
Proof.
  unfold dict_has, keys. induction d as [|[k' v'] d IH]; simpl; auto.
  destruct (String.eqb k' k) eqn:E; simpl; auto.
  rewrite IH. now destruct (dict_get d k).
Qed.

Lemma NoDup_keys_dict_set {V : Type} (d : dict V) (k : string) (v : V) :
  NoDup (keys d) -> NoDup (keys (dict_set d k v)).
Proof.
  intros H. rewrite keys_dict_set. destruct (dict_has d k) eqn:E; auto.
  apply NoDup_app; auto.
  - repeat constructor. simpl. tauto.
  - intros x Hx [<- | []].
    apply dict_has_In in Hx. congruence.
Qed.

Lemma dict_get_not_key {V : Type} (d : dict V) (k : string) :
  ~ In k (keys d) -> dict_get d k = None.
Proof.
  intros H. destruct (dict_get d k) eqn:E; auto.
  exfalso. apply H. apply dict_has_In. unfold dict_has. now rewrite E.
Qed.

Section Recorded.

Variable variables : VariableContainer.

Local Abbreviation kept := (entity_kept variables).
Local Abbreviation counts entity :=
  (kept entity && truthy (declared_dependencies (snd entity))).

Lemma recorded_cons (entity : string * yaml) (entities : list (string * yaml))
    (d : dict yaml) :
  recorded variables (entity :: entities) d =
  recorded variables entities
    (if counts entity
     then dict_set d (fst entity) (declared_dependencies (snd entity))
     else d).
Proof. reflexivity. Qed.

Lemma recorded_app (a b : list (string * yaml)) (d : dict yaml) :
  recorded variables (a ++ b) d = recorded variables b (recorded variables a d).
Proof. apply fold_left_app. Qed.

Lemma recorded_has (entities : list (string * yaml)) (d : dict yaml) (n : string) :
  dict_has (recorded variables entities d) n = true <->
  dict_has d n = true \/
  exists cfg, In (n, cfg) (filter kept entities) /\
              truthy (declared_dependencies cfg) = true.
Proof.
  revert d. induction entities as [|[n0 c0] entities IH]; intros d.
  - simpl. split; [auto | intros [H | (? & [] & _)]; exact H].
  - rewrite recorded_cons, IH. cbn [fst snd filter].
    destruct (kept (n0, c0)) eqn:Hkept; cbn [andb].
    + destruct (truthy (declared_dependencies c0)) eqn:Hdeps.
      * rewrite dict_has_set. split.
        -- intros [H | (cfg & Hin & Ht)].
           ++ apply orb_true_iff in H. destruct H as [H | H]; [|auto].
              apply String.eqb_eq in H. subst. right. exists c0.
              split; [now left | exact Hdeps].
           ++ right. exists cfg. split; [now right | exact Ht].
        -- intros [H | (cfg & [Hhead | Hin] & Ht)].
           ++ left. rewrite H. apply orb_true_r.
           ++ injection Hhead as <- <-. left. now rewrite String.eqb_refl.
           ++ right. exists cfg. auto.
      * split.
        -- intros [H | (cfg & Hin & Ht)]; [auto|].
           right. exists cfg. split; [now right | exact Ht].
        -- intros [H | (cfg & [Hhead | Hin] & Ht)]; [auto | |].
           ++ injection Hhead as <- <-. congruence.
           ++ right. exists cfg. auto.
    + reflexivity.
Qed.

Lemma recorded_get_unchanged (entities : list (string * yaml)) (d : dict yaml)
    (n : string) :
  (forall cfg, In (n, cfg) (filter kept entities) ->
               truthy (declared_dependencies cfg) = false) ->
  dict_get (recorded variables entities d) n = dict_get d n.
Proof.
  revert d. induction entities as [|[n0 c0] entities IH]; intros d Hnone; auto.
  rewrite recorded_cons. cbn [fst snd filter] in *.
  destruct (kept (n0, c0)) eqn:Hkept; cbn [andb].
  - rewrite IH by (intros cfg Hin; apply Hnone; now right).
    destruct (truthy (declared_dependencies c0)) eqn:Hdeps; auto.
    apply dict_get_set_other. intros <-.
    rewrite (Hnone c0 (or_introl eq_refl)) in Hdeps. discriminate.
  - now apply IH.
Qed.

Lemma recorded_get_unique (entities : list (string * yaml)) (d : dict yaml)
    (n : string) (cfg : yaml) :
  NoDup (map fst (filter kept entities)) ->
  In (n, cfg) (filter kept entities) ->
  truthy (declared_dependencies cfg) = true ->
  dict_get (recorded variables entities d) n = Some (declared_dependencies cfg).
Proof.
  revert d. induction entities as [|[n0 c0] entities IH]; intros d Hnodup Hin Hdeps.
  - destruct Hin.
  - rewrite recorded_cons. cbn [fst snd filter] in *.
    destruct (kept (n0, c0)) eqn:Hkept; cbn [andb]; [|now apply IH].
    cbn [map fst] in Hnodup. inversion Hnodup as [|? ? Hnotin Hnodup']; subst.
    destruct Hin as [Hhead | Hin].
    + injection Hhead as -> ->. rewrite Hdeps.
      rewrite recorded_get_unchanged.
      * apply dict_get_set_same.
      * intros c Hc. exfalso. apply Hnotin.
        apply (in_map fst) in Hc. exact Hc.
    + now apply IH.
Qed.

Lemma recorded_truthy (entities : list (string * yaml)) (d : dict yaml) :
  (forall n v, dict_get d n = Some v -> truthy v = true) ->
  forall n v, dict_get (recorded variables entities d) n = Some v ->
              truthy v = true.
Proof.
  revert d. induction entities as [|[n0 c0] entities IH]; intros d Hd.
  - exact Hd.
  - rewrite recorded_cons. apply IH. cbn [fst snd].
    destruct (kept (n0, c0) && truthy (declared_dependencies c0)) eqn:E;
      [|exact Hd].
    apply andb_true_iff in E. destruct E as [_ E].
    intros n v. destruct (String.eqb n0 n) eqn:En.
    + apply String.eqb_eq in En. subst. rewrite dict_get_set_same.
      now intros [= <-].
    + apply String.eqb_neq in En. rewrite dict_get_set_other by exact En.
      apply Hd.
Qed.

Lemma recorded_NoDup (entities : list (string * yaml)) (d : dict yaml) :
  NoDup (keys d) -> NoDup (keys (recorded variables entities d)).
Proof.
  revert d. induction entities as [|[n0 c0] entities IH]; intros d Hd.
  - exact Hd.
  - rewrite recorded_cons. apply IH.
    destruct (counts (n0, c0)); auto. now apply NoDup_keys_dict_set.
Qed.

Lemma recorded_filter (entities : list (string * yaml)) (d : dict yaml) :
  recorded variables entities d = recorded variables (filter kept entities) d.
Proof.
  revert d. induction entities as [|entity entities IH]; intros d; [reflexivity|].
  rewrite recorded_cons. cbn [filter].
  destruct (kept entity) eqn:Hkept; cbn [andb].
  - rewrite recorded_cons, Hkept. cbn [andb]. apply IH.
  - apply IH.
Qed.

Lemma recorded_get_last (entities before after : list (string * yaml))
    (d : dict yaml) (n : string) (cfg : yaml) :
  filter kept entities = before ++ (n, cfg) :: after ->
  truthy (declared_dependencies cfg) = true ->
  (forall cfg', In (n, cfg') after ->
                truthy (declared_dependencies cfg') = false) ->
  dict_get (recorded variables entities d) n = Some (declared_dependencies cfg).
Proof.
  intros Hsplit Hdeps Hafter.
  assert (Hkept : kept (n, cfg) = true).
  { assert (Hin : In (n, cfg) (filter kept entities)).
    { rewrite Hsplit. apply in_or_app. right. now left. }
    apply filter_In in Hin. tauto. }
  rewrite recorded_filter, Hsplit, recorded_app, recorded_cons.
  cbn [fst snd]. rewrite Hkept, Hdeps. cbn [andb].
  rewrite recorded_get_unchanged.
  - apply dict_get_set_same.
  - intros cfg' Hin. apply Hafter. apply filter_In in Hin. tauto.
Qed.

End Recorded.

Lemma py_iter_truthy (v : yaml) (raw : list yaml) :
  truthy v = true -> py_iter v = OK raw -> raw <> [].
Proof.
  destruct v as [| | |s|l|m]; simpl; try discriminate.
  - destruct s as [|c r]; [discriminate|]. intros _ [= <-].
    cbn [chars]. destruct (chars r); [discriminate|].
    destruct (match r with
              | String d _ => is_continuation d
              | EmptyString => false
              end); discriminate.
  - destruct l; [discriminate|]. intros _ [= <-]. discriminate.
  - destruct m; [discriminate|]. intros _ [= <-]. discriminate.
Qed.

Section Pipeline.

Variable container_str : yaml -> string.
Variable upper : string -> string.
Variables obj manager : Type.
Variable obj_truthy : obj -> bool.
Variable import_module : list string -> string -> result (PyModule obj manager).
Variable read_yaml : string -> result yaml.
Variables abspath dirname : string -> string.
Variable path_join : string -> string -> string.

Local Abbreviation read_config_documents' :=
  (read_config_documents container_str upper read_yaml abspath dirname path_join).
Local Abbreviation read_config' :=
  (read_config container_str upper obj_truthy import_module read_yaml
     abspath dirname path_join).

Variable modules : dict (module_entry obj).
Variable resolved : VariableContainer.
Variable config_helper : ConfigHelper.

Lemma read_entity_recorded (module : module_entry obj)
    (objects objects' : dict obj) (d d' : dict yaml)
    (name : string) (entity_config : yaml) :
  read_entity module resolved config_helper (objects, d) name entity_config
  = OK (objects', d') ->
  d' = recorded resolved [(name, entity_config)] d.
Proof.
  unfold read_entity, recorded, entity_kept.
  destruct entity_config as [| | | | |m]; try discriminate.
  cbn [yaml_get bind fold_left fst snd declared_dependencies].
  unfold or_default, get_default.
  destruct (_check_conditions_apply resolved
              match dict_get m "only" with Some v => v | None => YMap [] end
              match dict_get m "except" with Some v => v | None => YMap [] end)
    as [[|]|e]; cbn [bind andb].
  - now intros [= <- <-].
  - destruct (parser module name (YMap m) config_helper); cbn [bind];
      [|discriminate].
    now intros [= <- <-].
  - discriminate.
Qed.

Lemma read_entities_recorded (module : module_entry obj)
    (entities : list (string * yaml))
    (objects objects' : dict obj) (d d' : dict yaml) :
  read_entities module resolved config_helper entities (objects, d)
  = OK (objects', d') ->
  d' = recorded resolved entities d.
Proof.
  revert objects d.
  induction entities as [|[name entity_config] entities IH]; intros objects d; simpl.
  - now intros [= <- <-].
  - intros H. apply bind_OK in H. destruct H as ([o1 d1] & Hone & H).
    apply read_entity_recorded in Hone. apply IH in H. now subst.
Qed.

Lemma read_section_recorded (objects objects' : dict obj) (d d' : dict yaml)
    (name : string) (entity_config : yaml) :
  read_section modules resolved config_helper (objects, d) name entity_config
  = OK (objects', d') ->
  d' = recorded resolved
         (section_entities modules config_helper (name, entity_config)) d.
Proof.
  unfold read_section, section_entities.
  destruct (reserved name); [now intros [= <- <-]|].
  destruct (lookup_module modules entity_config) as [module|e];
    cbn [bind]; [|discriminate].
  destruct (preprocesser module) as [f|]; cbn [bind].
  - destruct (f name entity_config config_helper); cbn [bind]; [|discriminate].
    apply read_entities_recorded.
  - apply read_entities_recorded.
Qed.

Lemma read_sections_recorded (config : dict yaml)
    (objects objects' : dict obj) (d d' : dict yaml) :
  read_sections modules resolved config_helper config (objects, d)
  = OK (objects', d') ->
  d' = recorded resolved
         (flat_map (section_entities modules config_helper) config) d.
Proof.
  revert objects d.
  induction config as [|[name entity_config] config IH]; intros objects d.
  - now intros [= <- <-].
  - cbn [read_sections flat_map]. intros H.
    apply bind_OK in H. destruct H as ([o1 d1] & Hone & H).
    apply read_section_recorded in Hone. apply IH in H.
    rewrite recorded_app. now subst.
Qed.

(** What [_build_dependency_tree] leaves under each name. *)
Lemma build_entries_get (objects : dict obj) (items : dict yaml)
    (acc graph : dict (list (dependency_triple obj))) :
  build_entries obj_truthy objects items acc = OK graph ->
  forall n,
    (dict_get items n = None -> dict_get graph n = dict_get acc n) /\
    (forall string_dependencies,
       NoDup (keys items) ->
       dict_get items n = Some string_dependencies ->
       exists raw triples,
         py_iter string_dependencies = OK raw /\
         resolve_all obj_truthy objects raw = OK triples /\
         dict_get graph n = Some triples).
Proof.
  revert acc. induction items as [|[k sd] items IH]; intros acc; simpl.
  - intros [= <-] n. split; [auto | discriminate].
  - intros H n.
    apply bind_OK in H. destruct H as (raw & Hraw & H).
    apply bind_OK in H. destruct H as (triples & Htriples & H).
    destruct (IH _ H n) as [IHnone IHsome].
    destruct (String.eqb k n) eqn:E.
    + apply String.eqb_eq in E. subst k. split; [discriminate|].
      intros sd' Hnodup [= <-]. exists raw, triples.
      split; [exact Hraw|]. split; [exact Htriples|].
      inversion Hnodup as [|? ? Hnotin _]; subst.
      rewrite IHnone by now apply dict_get_not_key.
      apply dict_get_set_same.
    + apply String.eqb_neq in E. split.
      * intros Hnone. rewrite IHnone by exact Hnone.
        now apply dict_get_set_other.
      * intros sd' Hnodup Hsome. apply IHsome; auto.
        now inversion Hnodup.
Qed.

Lemma resolve_dependency_resolves (objects : dict obj) (dependency : yaml)
    (triple : dependency_triple obj) :
  resolve_dependency obj_truthy objects dependency = OK triple ->
  resolves objects dependency triple.
Proof.
  unfold resolve_dependency, resolves.
  destruct dependency as [| | |raw| |]; try discriminate.
  cbn [as_str bind].
  destruct (split_dependency raw) as [[name kind]|e] eqn:Hsplit;
    cbn [bind]; [|discriminate].
  destruct (dict_get objects name) as [o|] eqn:Hget; [|discriminate].
  destruct (obj_truthy o); [|discriminate].
  intros [= <-]. exists raw. auto.
Qed.

Lemma resolve_all_resolves (objects : dict obj) (raw : list yaml)
    (triples : list (dependency_triple obj)) :
  resolve_all obj_truthy objects raw = OK triples ->
  Forall2 (resolves objects) raw triples.
Proof.
  revert triples. induction raw as [|x raw IH]; intros triples; simpl.
  - intros [= <-]. constructor.
  - intros H. apply bind_OK in H. destruct H as (t & Ht & H).
    apply bind_OK in H. destruct H as (ts & Hts & H).
    injection H as <-. constructor; auto.
    now apply resolve_dependency_resolves.
Qed.

(** C9 (as amended).  After a load the graph has a key for a name
    exactly when some entity of that name reached the parser with a
    non-empty [dependencies]; no entry is an empty list, so a name
    whose entities declare no dependencies is absent; the entry of a
    name is the list of the resolved triples, in the declared order, of
    the dependency list of the last entity of that name that declared
    one, which is the entity's own list when names are not repeated. *)
Theorem dependency_graph_entries (config : dict yaml)
    (objects : dict obj) (graph : dict (list (dependency_triple obj))) :
  _read_config_entities obj_truthy modules resolved config config_helper
  = OK (objects, graph) ->
  let entities := kept_entities modules resolved config_helper config in
  (forall name,
     dict_has graph name = true <->
     exists entity_config,
       In (name, entity_config) entities /\
       truthy (declared_dependencies entity_config) = true) /\
  (forall name triples, dict_get graph name = Some triples -> triples <> []) /\
  (NoDup (map fst entities) ->
   forall name entity_config,
     In (name, entity_config) entities ->
     truthy (declared_dependencies entity_config) = true ->
     exists raw triples,
       py_iter (declared_dependencies entity_config) = OK raw /\
       dict_get graph name = Some triples /\
       Forall2 (resolves objects) raw triples) /\
  (forall before name entity_config after,
     entities = before ++ (name, entity_config) :: after ->
     truthy (declared_dependencies entity_config) = true ->
     (forall later, In (name, later) after ->
                    truthy (declared_dependencies later) = false) ->
     exists raw triples,
       py_iter (declared_dependencies entity_config) = OK raw /\
       dict_get graph name = Some triples /\
       Forall2 (resolves objects) raw triples).
Proof.
  unfold _read_config_entities, _build_dependency_tree, kept_entities.
  intros H. apply bind_OK in H. destruct H as ([o d] & Hread & H).
  apply bind_OK in H. destruct H as (g & Hbuild & H).
  injection H as <- <-.
  apply read_sections_recorded in Hread.
  set (all := flat_map (section_entities modules config_helper) config) in *.
  pose proof (build_entries_get _ _ _ Hbuild) as Hget.
  assert (Hnodup : NoDup (keys d)).
  { subst d. apply recorded_NoDup. constructor. }
  assert (Htruthy : forall n v, dict_get d n = Some v -> truthy v = true).
  { subst d. apply recorded_truthy. discriminate. }
  assert (Hhas : forall n, dict_has g n = dict_has d n).
  { intros n. unfold dict_has at 2. destruct (dict_get d n) as [sd|] eqn:E.
    - destruct (proj2 (Hget n) sd Hnodup E) as (raw & ts & _ & _ & Hg).
      unfold dict_has. now rewrite Hg.
    - unfold dict_has. now rewrite (proj1 (Hget n) E). }
  assert (Hentry : forall name entity_config,
    dict_get d name = Some (declared_dependencies entity_config) ->
    exists raw triples,
      py_iter (declared_dependencies entity_config) = OK raw /\
      dict_get g name = Some triples /\
      Forall2 (resolves o) raw triples).
  { intros name entity_config E.
    destruct (proj2 (Hget name) _ Hnodup E) as (raw & ts & Hraw & Hts & Hg).
    exists raw, ts. split; [exact Hraw|]. split; [exact Hg|].
    now apply resolve_all_resolves. }
  cbv zeta. split; [|split; [|split]].
  - intros name. rewrite Hhas. subst d. rewrite recorded_has.
    split; [intros [Hempty | Hex]; [discriminate | exact Hex] | auto].
  - intros name triples Hg.
    destruct (dict_get d name) as [sd|] eqn:E.
    + destruct (proj2 (Hget name) sd Hnodup E) as (raw & ts & Hraw & Hts & Hg').
      rewrite Hg in Hg'. injection Hg' as <-.
      pose proof (py_iter_truthy _ (Htruthy _ _ E) Hraw) as Hne.
      apply resolve_all_resolves in Hts.
      destruct Hts; [congruence | discriminate].
    + rewrite (proj1 (Hget name) E) in Hg. discriminate.
  - intros Hunique name entity_config Hin Hdeps.
    apply Hentry. subst d. now apply recorded_get_unique.
  - intros before name entity_config after Hsplit Hdeps Hafter.
    apply Hentry. subst d. eapply recorded_get_last; eauto.
Qed.

(** C6.  A raw dependency is split at its last colon into a name and a
    relation kind, the kind being ["create"] when there is no colon:
    the graph builder resolves ["db:create"] and ["db"] both to the
    triple of the name ["db"], the deployment object of that name and
    the kind ["create"], and every entry it returns holds the resolved
    triples of the raw list.  A dependency whose name has no deployment
    object raises, and with it the graph builder, the entity pipeline
    and the whole load fail. *)
Theorem dependency_resolution :
  split_dependency "db:create" = OK ("db", "create") /\
  split_dependency "db" = OK ("db", "create") /\
  (forall dependency, exists name kind,
     split_dependency dependency = OK (name, kind) /\
     ((count_char ":" dependency = 0%nat /\
       name = dependency /\ kind = "create") \/
      (dependency = (name ++ ":" ++ kind)%string /\
       count_char ":" kind = 0%nat))) /\
  (forall objects dependency name kind o,
     split_dependency dependency = OK (name, kind) ->
     dict_get objects name = Some o -> obj_truthy o = true ->
     resolve_dependency obj_truthy objects (YStr dependency) =
     OK (name, o, kind)) /\
  (forall objects o,
     dict_get objects "db" = Some o -> obj_truthy o = true ->
     _build_dependency_tree obj_truthy
       [("web", YList [YStr "db:create"; YStr "db"])] objects =
     OK [("web", [("db", o, "create"); ("db", o, "create")])]) /\
  (forall dependencies objects graph,
     NoDup (keys dependencies) ->
     _build_dependency_tree obj_truthy dependencies objects = OK graph ->
     forall entity,
       match dict_get dependencies entity with
       | Some string_dependencies =>
           exists raw triples,
             py_iter string_dependencies = OK raw /\
             dict_get graph entity = Some triples /\
             Forall2 (resolves objects) raw triples
       | None => dict_get graph entity = None
       end) /\
  (forall objects dependency name kind,
     split_dependency dependency = OK (name, kind) ->
     dict_get objects name = None ->
     resolve_dependency obj_truthy objects (YStr dependency) =
     Raise (Exception ("Could not find " ++ name)) /\
     forall dependencies entity string_dependencies raw,
       In (entity, string_dependencies) dependencies ->
       py_iter string_dependencies = OK raw ->
       In (YStr dependency) raw ->
       fails (_build_dependency_tree obj_truthy dependencies objects) /\
       forall config,
         read_sections modules resolved config_helper config ([], [])
         = OK (objects, dependencies) ->
         fails (_read_config_entities obj_truthy modules resolved config
                  config_helper) /\
         forall sys_path sys_path' environ filename provided managers,
           read_config_documents' environ filename provided
           = OK (resolved, config_helper, config) ->
           _init_modules import_module sys_path
             (get_default config "modules" (YList []))
           = OK (managers, modules, sys_path') ->
           fails (read_config' sys_path environ filename provided)).
Proof.
  split; [reflexivity|]. split; [reflexivity|].
  split; [exact split_dependency_last_colon|].
  assert (Hresolve : forall objects dependency name kind o,
    split_dependency dependency = OK (name, kind) ->
    dict_get objects name = Some o -> obj_truthy o = true ->
    resolve_dependency obj_truthy objects (YStr dependency) = OK (name, o, kind)).
  { intros objects dependency name kind o Hsplit Hget Htruthy.
    unfold resolve_dependency. cbn [as_str bind]. rewrite Hsplit. cbn [bind].
    now rewrite Hget, Htruthy. }
  split; [exact Hresolve|]. split; [|split].
  - intros objects o Hget Htruthy.
    unfold _build_dependency_tree. cbn [build_entries py_iter bind resolve_all].
    rewrite (Hresolve objects "db:create" "db" "create" o eq_refl Hget Htruthy).
    rewrite (Hresolve objects "db" "db" "create" o eq_refl Hget Htruthy).
    reflexivity.
  - intros dependencies objects graph Hnodup Hbuild entity.
    unfold _build_dependency_tree in Hbuild.
    destruct (@build_entries_get objects dependencies [] graph Hbuild entity)
      as [Hnone Hsome].
    destruct (dict_get dependencies entity) as [sd|].
    + destruct (Hsome sd Hnodup eq_refl) as (raw & triples & Hraw & Hts & Hg).
      exists raw, triples. split; [exact Hraw|]. split; [exact Hg|].
      now apply resolve_all_resolves.
    + now rewrite (Hnone eq_refl).
  - intros objects dependency name kind Hsplit Hnone.
    pose proof (@resolve_dependency_dangling _ obj_truthy objects _ _ _ Hsplit Hnone)
      as Hone.
    split; [exact Hone|].
    intros dependencies entity string_dependencies raw Hin Hraw Hdep.
    assert (Hbuild : fails (_build_dependency_tree obj_truthy dependencies objects)).
    { unfold _build_dependency_tree.
      eapply build_entries_fails; eauto.
      rewrite Hone. eexists. reflexivity. }
    split; [exact Hbuild|].
    intros config Hread.
    assert (Hentities : fails (_read_config_entities obj_truthy modules resolved
                                 config config_helper)).
    { unfold _read_config_entities. rewrite Hread. cbn [bind].
      destruct Hbuild as [e ->]. exists e. reflexivity. }
    split; [exact Hentities|].
    intros sys_path sys_path' environ filename provided managers Hdocs Hmods.
    unfold read_config. rewrite Hdocs. cbn [bind]. rewrite Hmods. cbn [bind].
    destruct Hentities as [e ->]. exists e. reflexivity.
Qed.

(** An item of an included document that merged is in the config
    under its key, which the config did not have before. *)
Lemma merge_include_get (include : string) (items config config' : dict yaml)
    (k : string) (v : yaml) :
  merge_include include items config = OK config' ->
  In (k, v) items ->
  dict_get config' k = Some v /\ dict_has config k = false.
Proof.
  revert config. induction items as [|[key values] items IH]; intros config; simpl.
  - intros _ [].
  - destruct (dict_has config key) eqn:Hhas; [discriminate|].
    intros Hmerge [Hhead | Hin].
    + injection Hhead as -> ->. split; [|exact Hhas].
      apply merge_include_appends in Hmerge. subst config'.
      rewrite dict_get_app, dict_get_set_same. reflexivity.
    + destruct (IH _ Hmerge Hin) as [Hget Hfresh]. split; [exact Hget|].
      rewrite dict_has_set in Hfresh. now apply orb_false_iff in Hfresh.
Qed.

Lemma merge_includes_get (base_path : string) (includes : list yaml)
    (config config' : dict yaml) (include : string) (items : dict yaml)
    (k : string) (v : yaml) :
  merge_includes read_yaml abspath path_join base_path includes config
  = OK config' ->
  In (YStr include) includes ->
  read_yaml (abspath (path_join base_path include)) = OK (YMap items) ->
  In (k, v) items ->
  dict_get config' k = Some v /\ dict_has config k = false.
Proof.
  intros Hmerge Hin Hread Hitem. revert config Hmerge.
  induction includes as [|x includes IH]; intros config Hmerge; [destruct Hin|].
  cbn [merge_includes] in Hmerge.
  apply bind_OK in Hmerge. destruct Hmerge as (inc & Hinc & H).
  apply bind_OK in H. destruct H as (doc & Hdoc & H).
  apply bind_OK in H. destruct H as (its & Hits & H).
  apply bind_OK in H. destruct H as (c1 & Hc1 & Hrest).
  destruct Hin as [-> | Hin].
  - cbn [as_str] in Hinc. injection Hinc as <-.
    rewrite Hread in Hdoc. injection Hdoc as <-.
    cbn [yaml_items] in Hits. injection Hits as <-.
    destruct (@merge_include_get _ _ _ _ _ _ Hc1 Hitem) as [Hget Hfresh].
    split; [|exact Hfresh].
    destruct (@merge_includes_extends _ _ _ _ _ _ _ Hrest) as [added ->].
    now rewrite dict_get_app, Hget.
  - destruct (IH Hin _ Hrest) as [Hget Hfresh]. split; [exact Hget|].
    apply merge_include_appends in Hc1. subst c1.
    rewrite dict_has_app in Hfresh. now apply orb_false_iff in Hfresh.
Qed.

(** C10.  The variable container of a load is what [_read_variables]
    makes of the [variables] section of the root document and the
    provided variables.  A [variables] section that comes from an
    included file is in the merged config under its key, the container
    holds the provided variables only, and the entity pipeline passes
    over the key. *)
Theorem variables_from_root_document (environ : dict string) (filename : string)
    (provided : dict yaml) (container : VariableContainer)
    (helper : ConfigHelper) (config : dict yaml) :
  read_config_documents' environ filename provided
  = OK (container, helper, config) ->
  exists root,
    read_yaml (abspath filename) = OK (YMap root) /\
    _read_variables container_str upper environ
      (get_default root "variables" (YMap [])) provided = OK container /\
    forall includes include items section,
      py_iter (get_default root "includes" (YList [])) = OK includes ->
      In (YStr include) includes ->
      read_yaml (abspath (path_join (dirname (abspath filename)) include))
      = OK (YMap items) ->
      In ("variables", section) items ->
      dict_get config "variables" = Some section /\
      container = {| variables := pass_through provided [] |} /\
      forall state,
        read_section modules container helper state "variables" section
        = OK state.
Proof.
  unfold read_config_documents. intros H.
  apply bind_OK in H. destruct H as (doc & Hdoc & H).
  apply bind_OK in H. destruct H as (root & Hroot & H).
  apply bind_OK in H. destruct H as (vars & Hvars & H).
  apply bind_OK in H. destruct H as (includes0 & Hincludes & H).
  apply bind_OK in H. destruct H as (merged & Hmerged & H).
  injection H as <- <- <-.
  destruct doc; try discriminate. cbn [yaml_items] in Hroot.
  injection Hroot as <-.
  exists m. split; [exact Hdoc|]. split; [exact Hvars|].
  intros includes include items section Hiter Hin Hread Hitem.
  rewrite Hincludes in Hiter. injection Hiter as <-.
  destruct (@merge_includes_get _ _ _ _ _ _ _ _ Hmerged Hin Hread Hitem)
    as [Hget Hfresh].
  split; [exact Hget|]. split; [|reflexivity].
  unfold dict_has in Hfresh. unfold get_default in Hvars.
  destruct (dict_get m "variables"); [discriminate|].
  cbn in Hvars. now injection Hvars as <-.
Qed.

(** C2 (as amended).  A missing required variable, a value outside an
    allow-list of strings, a rendered text that still has a [{{], and
    a top-level key declared twice raise [ConfigurationException].
    An unknown entity [type] raises [KeyError], and a module that
    cannot be imported raises what the importer raises. *)
Theorem failure_kinds :
  (forall environ provided name config value,
     _calculate_variable_value upper environ name (YMap config) provided = OK value ->
     truthy value = false ->
     is_required config = true ->
     is_configuration_error
       (read_variable container_str upper environ provided name (YMap config))) /\
  (forall environ provided name config value allowed,
     _calculate_variable_value upper environ name (YMap config) provided = OK value ->
     truthy value = true \/ is_required config = false ->
     dict_get config "values" = Some (YList (map YStr allowed)) ->
     list_contains (map YStr allowed) value = false ->
     is_configuration_error
       (read_variable container_str upper environ provided name (YMap config))) /\
  (forall (pystache_render : string -> dict yaml -> result string)
          self text extra_vars out,
     pystache_render text
       match extra_vars with
       | [] => self.(variables)
       | _ => dict_merge self.(variables) extra_vars
       end = OK out ->
     count_open out <> 0%nat ->
     render pystache_render self text extra_vars =
     Raise (ConfigurationException "Unresolved variable")) /\
  (forall include items config k,
     In k (keys items) -> dict_has config k = true ->
     is_configuration_error (merge_include include items config)) /\
  (forall state name entity_config type,
     reserved name = false ->
     dict_get entity_config "type" = Some (YStr type) ->
     dict_get modules type = None ->
     read_section modules resolved config_helper state name (YMap entity_config)
     = Raise (KeyError (YStr type))) /\
  (forall managers loaded sys_path module_path e,
     count_char ":" module_path = 0%nat ->
     import_module sys_path module_path = Raise e ->
     init_module import_module (managers, loaded, sys_path) (YStr module_path)
     = Raise e).
Proof.
  repeat split.
  - intros environ provided name config value Hvalue Hfalsy Hreq.
    eexists. eapply read_variable_required; eauto.
  - intros environ provided name config value allowed Hvalue Hreq Hvalues Hout.
    rewrite (@read_variable_allowed_values container_str upper environ provided name
               config value allowed Hvalue Hreq Hvalues), Hout.
    eexists. reflexivity.
  - intros pystache_render self text extra_vars out Hout Hopen.
    unfold render. rewrite Hout. cbn [bind].
    apply Nat.eqb_neq in Hopen. now rewrite Hopen.
  - intros include items config k Hin Hhas.
    destruct (merge_include_collision include items config k Hin Hhas)
      as (key & _ & _ & ->).
    eexists. reflexivity.
  - intros state name entity_config type Hname Htype Hnone.
    unfold read_section, lookup_module. rewrite Hname.
    cbn [yaml_index]. rewrite Htype. cbn [bind]. now rewrite Hnone.
  - intros managers loaded sys_path module_path e Hcolon Himport.
    unfold init_module. cbn [as_str bind]. rewrite Hcolon.
    cbn [Nat.ltb Nat.leb bind]. now rewrite Himport.
Qed.

End Pipeline.

(** ** The properties on the small installation *)

Lemma include_merge_witness :
  (exists key,
     Sample.read_config Sample.twice_jobs [] "dcos.yml" [] =
     Raise (ConfigurationException
              (key ++ " found in base config and include file " ++ "more.yml"))) /\
  (exists key,
     In key ["jobs"] /\
     merge_includes (Sample.read_files Sample.two_includes) Sample.abspath
       Sample.path_join "" [YStr "a.yml"; YStr "b.yml"]
       [("includes", YList [YStr "a.yml"; YStr "b.yml"])] =
     Raise (ConfigurationException
              (key ++ " found in base config and include file " ++ "b.yml"))).
Proof.
  split.
  - destruct (proj1 (proj2 (include_merge Sample.container_str ascii_upper truthy
                              Sample.import_module
                              (Sample.read_files Sample.twice_jobs)
                              Sample.abspath Sample.dirname Sample.path_join
                              "more.yml" [("jobs", YMap [("type", YStr "jobs")])]
                              [("includes", YList [YStr "more.yml"]);
                               ("jobs", YMap [("type", YStr "jobs")])]))
                "jobs" (or_introl eq_refl) eq_refl)
      as (key & _ & _ & _ & Hload).
    exists key.
    apply (proj2 (Hload "" [] []
                    [("includes", YList [YStr "more.yml"]);
                     ("jobs", YMap [("type", YStr "jobs")])]
                    eq_refl eq_refl)
             [] [] "dcos.yml" [] {| variables := [] |});
      reflexivity.
  - apply (proj2 (proj2 (proj2 (include_merge Sample.container_str ascii_upper
                                  truthy Sample.import_module
                                  (Sample.read_files Sample.two_includes)
                                  Sample.abspath Sample.dirname Sample.path_join
                                  "" [] [])))
             "" "a.yml" "b.yml" [("jobs", YMap [("type", YStr "jobs")])]
             [("jobs", YMap [("type", YStr "jobs")])] []
             [("includes", YList [YStr "a.yml"; YStr "b.yml"])] "jobs").
    + reflexivity.
    + reflexivity.
    + repeat constructor. simpl. tauto.
    + intros k [<- | []]. reflexivity.
    + now left.
    + now left.
Defined.

Lemma dependency_graph_entries_witness :
  (exists entity_config,
     In ("web", entity_config)
        (kept_entities Sample.modules {| variables := [] |} (Sample.helper [])
           Sample.with_db) /\
     truthy (declared_dependencies entity_config) = true) /\
  (exists raw triples,
     py_iter (declared_dependencies Sample.web) = OK raw /\
     dict_get [("web", [("db", YMap [("type", YStr "apps")], "update");
                        ("db", YMap [("type", YStr "apps")], "create")])]
       "web" = Some triples /\
     Forall2 (resolves [("db", YMap [("type", YStr "apps")]);
                        ("web", YMap [("type", YStr "apps")])])
       raw triples).
Proof.
  split.
  - apply (proj1 (@dependency_graph_entries yaml truthy Sample.modules
                    {| variables := [] |} (Sample.helper []) Sample.with_db
                    Sample.with_db
                    [("web", [("db", Sample.db, "update");
                              ("db", Sample.db, "create")])]
                    eq_refl)
             "web").
    reflexivity.
  - apply (proj2 (proj2 (proj2
             (@dependency_graph_entries yaml truthy Sample.fan_out
                {| variables := [] |} (Sample.helper []) Sample.with_db
                [("db", YMap [("type", YStr "apps")]);
                 ("web", YMap [("type", YStr "apps")])]
                [("web", [("db", YMap [("type", YStr "apps")], "update");
                          ("db", YMap [("type", YStr "apps")], "create")])]
                eq_refl)))
             [("db", Sample.db); ("db", YMap [("type", YStr "apps")])]
             "web" Sample.web [("web", YMap [("type", YStr "apps")])]).
    + reflexivity.
    + reflexivity.
    + intros later [Hlater | []]. injection Hlater as <-. reflexivity.
Defined.

(** Two entities named [web] come out of one section, the first with
    dependencies and the second without.  The second is the one that
    stays as the deployment object, it declares no dependencies, and
    the graph has the key [web] all the same. *)
Lemma repeated_name_keeps_dependencies :
  _read_config_entities truthy Sample.fan_out {| variables := [] |}
    Sample.with_db (Sample.helper []) =
  OK ([("db", YMap [("type", YStr "apps")]);
       ("web", YMap [("type", YStr "apps")])],
      [("web", [("db", YMap [("type", YStr "apps")], "update");
                ("db", YMap [("type", YStr "apps")], "create")])]) /\
  truthy (declared_dependencies (YMap [("type", YStr "apps")])) = false.
Proof. split; reflexivity. Qed.

Lemma dependency_resolution_witness :
  _build_dependency_tree truthy [("web", YList [YStr "db:create"; YStr "db"])]
    Sample.with_db
  = OK [("web", [("db", Sample.db, "create"); ("db", Sample.db, "create")])] /\
  fails (Sample.read_config [("dcos.yml", YMap Sample.without_db)] []
           "dcos.yml" []).
Proof.
  pose proof (proj2 (proj2 (proj2 (proj2
    (dependency_resolution Sample.container_str ascii_upper truthy
       Sample.import_module
       (Sample.read_files [("dcos.yml", YMap Sample.without_db)])
       Sample.abspath Sample.dirname Sample.path_join
       Sample.standard_modules {| variables := [] |} (Sample.helper []))))))
    as [Hdb [_ Hdangling]].
  split; [apply (Hdb Sample.with_db Sample.db); reflexivity|].
  pose proof (proj2 (Hdangling Sample.without_db "db:update" "db" "update"
                       eq_refl eq_refl)) as Hbuild.
  pose proof (proj2 (Hbuild [("web", YList [YStr "db:update"; YStr "db"])] "web"
                       (YList [YStr "db:update"; YStr "db"])
                       [YStr "db:update"; YStr "db"]
                       (or_introl eq_refl) eq_refl (or_introl eq_refl)))
    as Hentities.
  pose proof (proj2 (Hentities Sample.without_db eq_refl)) as Hload.
  apply (Hload [] [] [] "dcos.yml" [] Sample.standard_managers); reflexivity.
Defined.

Lemma variables_from_root_document_witness :
  exists config,
    Sample.read_config_documents Sample.included_variables [] "dcos.yml"
      [("env", YStr "prod")]
    = OK ({| variables := [("env", YStr "prod")] |},
          Sample.helper [("env", YStr "prod")], config) /\
    dict_get config "variables"
    = Some (YMap [("token", YMap [("required", YBool true)])]).
Proof.
  eexists. split; [reflexivity|].
  destruct (@variables_from_root_document Sample.container_str ascii_upper yaml
              (Sample.read_files Sample.included_variables)
              Sample.abspath Sample.dirname Sample.path_join Sample.modules
              [] "dcos.yml" [("env", YStr "prod")] _ _ _ eq_refl)
    as (root & Hroot & _ & Hincluded).
  injection Hroot as <-.
  apply (Hincluded [YStr "vars.yml"] "vars.yml"
           [("variables", YMap [("token", YMap [("required", YBool true)])])]
           (YMap [("token", YMap [("required", YBool true)])])
           eq_refl (or_introl eq_refl) eq_refl (or_introl eq_refl)).
Defined.

Lemma failure_kinds_witness :
  is_configuration_error
    (read_variable Sample.container_str ascii_upper [] [] "token"
       (YMap [("required", YBool true)])) /\
  is_configuration_error
    (read_variable Sample.container_str ascii_upper [] [] "env"
       (YMap [("default", YStr "c"); ("values", YList [YStr "a"; YStr "b"])])) /\
  Sample.render {| variables := [] |} "Hello {{name" [] =
  Raise (ConfigurationException "Unresolved variable") /\
  is_configuration_error
    (merge_include "more.yml" [("jobs", YNull)] [("jobs", YNull)]) /\
  read_section Sample.modules {| variables := [] |} (Sample.helper []) ([], [])
    "web" (YMap [("type", YStr "nope")]) = Raise (KeyError (YStr "nope")) /\
  init_module Sample.import_module ([], [], []) (YStr "missing") =
  Raise (ImportError "missing").
Proof.
  destruct (failure_kinds Sample.container_str ascii_upper Sample.import_module Sample.modules
              {| variables := [] |} (Sample.helper []))
    as (Hrequired & Hvalues & Hrender & Hduplicate & Htype & Himport).
  split; [|split; [|split; [|split; [|split]]]].
  - apply (Hrequired [] [] "token" [("required", YBool true)] YNull);
      reflexivity.
  - apply (Hvalues [] [] "env"
             [("default", YStr "c"); ("values", YList [YStr "a"; YStr "b"])]
             (YStr "c") ["a"; "b"]);
      [reflexivity | left; reflexivity | reflexivity | reflexivity].
  - apply (Hrender (Pystache.render (py_str Sample.container_str))
             {| variables := [] |} "Hello {{name" [] "Hello {{name");
      [reflexivity | discriminate].
  - apply (Hduplicate "more.yml" [("jobs", YNull)] [("jobs", YNull)] "jobs");
      [left; reflexivity | reflexivity].
  - apply (Htype ([], []) "web" [("type", YStr "nope")] "nope"); reflexivity.
  - apply (Himport [] [] [] "missing" (ImportError "missing")); reflexivity.
Defined.

(** An unknown entity type ends the load with [KeyError], and a module
    that cannot be imported with the importer's [ImportError]: neither
    is a [ConfigurationException]. *)
Lemma unknown_type_is_not_a_configuration_error :
  Sample.read_config [("dcos.yml", YMap [("web", YMap [("type", YStr "nope")])])]
    [] "dcos.yml" [] = Raise (KeyError (YStr "nope")) /\
  ~ is_configuration_error
      (Sample.read_config
         [("dcos.yml", YMap [("web", YMap [("type", YStr "nope")])])]
         [] "dcos.yml" []) /\
  Sample.read_config [("dcos.yml", YMap [("modules", YList [YStr "missing"])])]
    [] "dcos.yml" [] = Raise (ImportError "missing") /\
  ~ is_configuration_error
      (Sample.read_config
         [("dcos.yml", YMap [("modules", YList [YStr "missing"])])]
         [] "dcos.yml" []).
Proof.
  split; [reflexivity|]. split; [intros [msg H]; discriminate H|].
  split; [reflexivity|]. intros [msg H]. discriminate H.
Qed.


(** * Further properties of the code *)

(** ** Strings *)

Lemma count_char_app (c : ascii) (a b : string) :
  count_char c (a ++ b) = (count_char c a + count_char c b)%nat.
Proof. induction a as [|d a IH]; simpl; [reflexivity | rewrite IH; lia]. Qed.

Lemma rsplit1_app (c : ascii) (a b : string) :
  count_char c b = 0%nat ->
  rsplit1 c (a ++ String c b) = Some (a, b).
Proof.
  intros Hb. induction a as [|d a IH]; simpl.
  - apply rsplit1_none in Hb. rewrite Hb. now rewrite Ascii.eqb_refl.
  - now rewrite IH.
Qed.

(** X1.  A name and a colon-free kind joined by a colon split back into the
    two: the name may itself have colons, and either part may be
    empty. *)
Theorem split_dependency_round_trip (name kind : string) :
  count_char ":" kind = 0%nat ->
  split_dependency (name ++ ":" ++ kind) = OK (name, kind).
Proof.
  intros Hkind. unfold split_dependency, py_rsplit1.
  rewrite count_char_app. simpl count_char.
  replace (0 <? count_char ":" name + S (count_char ":" kind))%nat with true
    by (symmetry; apply Nat.ltb_lt; lia).
  change (name ++ ":" ++ kind)%string with (name ++ String ":" kind)%string.
  now rewrite rsplit1_app.
Qed.

Lemma split_dependency_round_trip_witness :
  split_dependency "ns:db:update" = OK ("ns:db", "update").
Proof. apply (split_dependency_round_trip "ns:db" "update"). reflexivity. Defined.

Lemma upper_replace_char (c : ascii) :
  let d := upper_char (if Ascii.eqb c "-" then "_"%char else c) in
  negb (is_lower d) && negb (Ascii.eqb d "-") = true.
Proof.
  destruct c as [[] [] [] [] [] [] [] []]; reflexivity.
Qed.

Lemma is_ascii_replace_char (a b : ascii) (s : string) :
  is_ascii (String b EmptyString) = true -> is_ascii s = true ->
  is_ascii (replace_char a b s) = true.
Proof.
  unfold is_ascii, replace_char. simpl. rewrite andb_true_r. intros Hb.
  induction s as [|c s IH]; simpl; [reflexivity|].
  intros H. apply andb_true_iff in H. destruct H as [Hc Hs].
  rewrite (IH Hs), andb_true_r. now destruct (Ascii.eqb c a).
Qed.

(** X2.  For a variable name of ASCII characters, on which [str.upper]
    is the ASCII case mapping, the derived environment name is ["VAR_"]
    followed by one character per character of the name, none of them a
    dash or a lower-case letter. *)
Theorem derived_env_name_shape (upper : string -> string) (name : string) :
  (forall s, is_ascii s = true -> upper s = ascii_upper s) ->
  is_ascii name = true ->
  exists rest,
    derived_env_name upper name = ("VAR_" ++ rest)%string /\
    String.length rest = String.length name /\
    string_all (fun c => negb (is_lower c) && negb (Ascii.eqb c "-")) rest = true.
Proof.
  intros Hupper Hname.
  exists (ascii_upper (replace_char "-" "_" name)). split.
  - unfold derived_env_name. rewrite Hupper; [reflexivity|].
    now apply is_ascii_replace_char.
  - clear Hupper Hname. unfold ascii_upper, replace_char.
    induction name as [|c name [IHlen IHall]]; simpl; [auto|].
    split; [now rewrite IHlen|].
    rewrite IHall, andb_true_r. apply upper_replace_char.
Qed.

Lemma derived_env_name_shape_witness :
  exists rest,
    derived_env_name ascii_upper "my-var" = ("VAR_" ++ rest)%string /\
    String.length rest = 6%nat /\
    string_all (fun c => negb (is_lower c) && negb (Ascii.eqb c "-")) rest = true.
Proof.
  apply (derived_env_name_shape ascii_upper "my-var"); reflexivity.
Defined.

Lemma count_open_cons (c : ascii) (r : string) :
  count_open (String c r) =
  if Ascii.eqb c "{" then
    match r with
    | String d r' => if Ascii.eqb d "{" then S (count_open r') else count_open r
    | EmptyString => 0%nat
    end
  else count_open r.
Proof.
  destruct c as [[] [] [] [] [] [] [] []]; try reflexivity.
  destruct r as [|d r']; [reflexivity|].
  destruct d as [[] [] [] [] [] [] [] []]; reflexivity.
Qed.

Lemma prefix_open (s : string) :
  String.prefix "{{" s =
  match s with
  | String c (String d _) => Ascii.eqb c "{" && Ascii.eqb d "{"
  | _ => false
  end.
Proof.
  destruct s as [|c r]; [reflexivity|].
  destruct c as [[] [] [] [] [] [] [] []];
    destruct r as [|d r']; try reflexivity.
  destruct d as [[] [] [] [] [] [] [] []]; try reflexivity.
  simpl. now destruct r'.
Qed.

Lemma count_open_zero_iff (s : string) :
  count_open s = 0%nat <-> is_substring "{{" s = false.
Proof.
  induction s as [|c r IH].
  - simpl. tauto.
  - rewrite count_open_cons. cbn [is_substring]. rewrite prefix_open.
    destruct (Ascii.eqb c "{") eqn:Ec.
    + destruct r as [|d r'].
      * simpl. tauto.
      * destruct (Ascii.eqb d "{") eqn:Ed; cbn [andb orb].
        -- split; discriminate.
        -- exact IH.
    + destruct r as [|d r']; cbn [andb orb]; exact IH.
Qed.

(** ** Rendering with extra variables *)

(** X3.  When the template engine returns a text, [render] raises its
    [ConfigurationException] exactly when ["{{"] occurs in that text,
    and returns the text exactly when it does not; the template itself
    plays no part. *)
Theorem render_fails_iff_marker
    (pystache_render : string -> dict yaml -> result string)
    (self : VariableContainer) (text out : string) :
  pystache_render text self.(variables) = OK out ->
  (render pystache_render self text [] =
   Raise (ConfigurationException "Unresolved variable") <->
   is_substring "{{" out = true) /\
  (render pystache_render self text [] = OK out <->
   is_substring "{{" out = false).
Proof.
  intros Hout. unfold render. rewrite Hout. cbn [bind].
  pose proof (count_open_zero_iff out) as Hzero.
  destruct (Nat.eqb (count_open out) 0) eqn:E; cbn [negb].
  - apply Nat.eqb_eq in E. apply Hzero in E. rewrite E.
    split; split; try discriminate; reflexivity.
  - apply Nat.eqb_neq in E.
    destruct (is_substring "{{" out) eqn:Hsub.
    + split; split; try discriminate; reflexivity.
    + destruct E. now apply Hzero.
Qed.

Lemma render_fails_iff_marker_witness :
  Sample.render {| variables := [("v", YStr "{{")] |} "{{v}}" [] =
  Raise (ConfigurationException "Unresolved variable").
Proof.
  apply (proj2 (proj1 (@render_fails_iff_marker
                         (Pystache.render (py_str Sample.container_str))
                         {| variables := [("v", YStr "{{")] |} "{{v}}" "{{"
                         eq_refl))).
  reflexivity.
Defined.

Lemma dict_get_merge {V : Type} (a b : dict V) (k : string) :
  NoDup (keys b) ->
  dict_get (dict_merge a b) k =
  match dict_get b k with Some v => Some v | None => dict_get a k end.
Proof.
  unfold dict_merge. revert a.
  induction b as [|[k0 v0] b IH]; intros a Hnodup; [reflexivity|].
  inversion Hnodup as [|? ? Hnotin Hnodup']; subst.
  cbn [fold_left fst snd dict_get]. rewrite IH by exact Hnodup'.
  destruct (String.eqb k0 k) eqn:E.
  - apply String.eqb_eq in E. subst k0.
    rewrite (dict_get_not_key _ _ Hnotin). apply dict_get_set_same.
  - apply String.eqb_neq in E.
    destruct (dict_get b k); [reflexivity|].
    now apply dict_get_set_other.
Qed.

(** X4.  Rendering with extra variables is rendering against a container in
    which every extra variable has its extra value and every other
    name keeps the value of the container. *)
Theorem render_extra_vars_override
    (pystache_render : string -> dict yaml -> result string)
    (self : VariableContainer) (text : string) (extra_vars : dict yaml) :
  NoDup (keys extra_vars) ->
  exists merged,
    (forall k, dict_get merged k =
               match dict_get extra_vars k with
               | Some v => Some v
               | None => dict_get self.(variables) k
               end) /\
    render pystache_render self text extra_vars =
    render pystache_render {| variables := merged |} text [].
Proof.
  intros Hnodup. exists (dict_merge self.(variables) extra_vars). split.
  - intros k. now apply dict_get_merge.
  - unfold render. cbn [variables]. now destruct extra_vars.
Qed.

Lemma render_extra_vars_override_witness :
  exists merged,
    dict_get merged "env" = Some (YStr "prod") /\
    dict_get merged "app" = Some (YStr "web") /\
    Sample.render {| variables := [("env", YStr "dev"); ("app", YStr "web")] |}
      "{{app}}-{{env}}" [("env", YStr "prod")] =
    Sample.render {| variables := merged |} "{{app}}-{{env}}" [].
Proof.
  destruct (@render_extra_vars_override
              (Pystache.render (py_str Sample.container_str))
              {| variables := [("env", YStr "dev"); ("app", YStr "web")] |}
              "{{app}}-{{env}}" [("env", YStr "prod")])
    as (merged & Hget & Hrender).
  - repeat constructor. simpl. tauto.
  - exists merged. split; [apply (Hget "env")|].
    split; [apply (Hget "app") | exact Hrender].
Defined.

(** ** The variable container *)

Section Container.

Variable container_str : yaml -> string.
Variable upper : string -> string.
Variable environ : dict string.
Variable provided : dict yaml.

Local Abbreviation read_variable' := (read_variable container_str upper environ provided).
Local Abbreviation read_declared' := (read_declared container_str upper environ provided).

(** What [read_variable] returns is the calculated value, and it
    passed the checks of its declaration. *)
Lemma read_variable_OK (name : string) (config value : yaml) :
  read_variable' name config = OK value ->
  _calculate_variable_value upper environ name config provided = OK value /\
  (truthy value = false ->
   exists r, yaml_get config "required" = OK r /\
             truthy (or_default r (YBool false)) = false) /\
  exists has_values,
    yaml_has_key "values" config = OK has_values /\
    (has_values = true ->
     exists allowed, yaml_index config "values" = OK allowed /\
                     py_in value allowed = OK true).
Proof.
  unfold read_variable.
  destruct (_calculate_variable_value upper environ name config provided) as [v|e];
    cbn [bind]; [|discriminate].
  intros H. apply bind_OK in H. destruct H as (required & Hreq & H).
  destruct required; [discriminate|].
  apply bind_OK in H. destruct H as (has_values & Hhas & H).
  assert (Hv : v = value /\
               (has_values = true ->
                exists allowed, yaml_index config "values" = OK allowed /\
                                py_in v allowed = OK true)).
  { destruct has_values.
    - apply bind_OK in H. destruct H as (allowed & Hallowed & H).
      apply bind_OK in H. destruct H as (member & Hmember & H).
      destruct member.
      + injection H as <-. split; [reflexivity|]. intros _. eauto.
      + destruct (py_join "," allowed); discriminate.
    - injection H as <-. split; [reflexivity | discriminate]. }
  destruct Hv as [<- Hallowed].
  split; [reflexivity|]. split.
  - intros Hfalsy. rewrite Hfalsy in Hreq.
    apply bind_OK in Hreq. destruct Hreq as (r & Hr & Hreq).
    exists r. split; [exact Hr|]. injection Hreq as Hreq.
    unfold or_default. exact Hreq.
  - exists has_values. auto.
Qed.

Lemma calculate_provided (name : string) (config v : yaml) :
  dict_get provided name = Some v ->
  _calculate_variable_value upper environ name config provided = OK v.
Proof. intros H. unfold _calculate_variable_value. now rewrite H. Qed.

(** Where the values of the first loop come from. *)
Lemma read_declared_origin (items acc res : dict yaml) (n : string) (x : yaml) :
  read_declared' items acc = OK res ->
  dict_get res n = Some x ->
  dict_get acc n = Some x \/
  exists config, In (n, config) items /\ read_variable' n config = OK x.
Proof.
  revert acc. induction items as [|[name config] items IH]; intros acc; simpl.
  - intros [= <-]. auto.
  - intros H Hx. apply bind_OK in H. destruct H as (value & Hvalue & H).
    destruct (IH _ H Hx) as [Hacc | (config' & Hin & Hread)].
    + destruct (String.eqb name n) eqn:E.
      * apply String.eqb_eq in E. subst name.
        rewrite dict_get_set_same in Hacc. injection Hacc as <-.
        right. exists config. auto.
      * apply String.eqb_neq in E.
        rewrite dict_get_set_other in Hacc by exact E. auto.
    + right. exists config'. auto.
Qed.

Lemma read_declared_get (items acc res : dict yaml) :
  read_declared' items acc = OK res ->
  forall n,
    (dict_get items n = None -> dict_get res n = dict_get acc n) /\
    (forall config,
       NoDup (keys items) ->
       dict_get items n = Some config ->
       exists value, read_variable' n config = OK value /\
                     dict_get res n = Some value).
Proof.
  revert acc. induction items as [|[name config] items IH]; intros acc; simpl.
  - intros [= <-] n. split; [auto | discriminate].
  - intros H n. apply bind_OK in H. destruct H as (value & Hvalue & H).
    destruct (IH _ H n) as [IHnone IHsome].
    destruct (String.eqb name n) eqn:E.
    + apply String.eqb_eq in E. subst name. split; [discriminate|].
      intros config' Hnodup Hsome. injection Hsome as <-.
      exists value. split; [exact Hvalue|].
      inversion Hnodup as [|? ? Hnotin _]; subst.
      rewrite IHnone by now apply dict_get_not_key.
      apply dict_get_set_same.
    + apply String.eqb_neq in E. split.
      * intros Hnone. rewrite IHnone by exact Hnone.
        now apply dict_get_set_other.
      * intros config' Hnodup Hsome. apply IHsome; auto.
        now inversion Hnodup.
Qed.

Lemma read_declared_has (items acc res : dict yaml) (n : string) :
  read_declared' items acc = OK res ->
  dict_has res n = dict_has acc n || dict_has items n.
Proof.
  revert acc. induction items as [|[name config] items IH]; intros acc; simpl.
  - intros [= <-]. now rewrite orb_false_r.
  - intros H. apply bind_OK in H. destruct H as (value & _ & H).
    rewrite (IH _ H), dict_has_set. unfold dict_has at 4. simpl.
    destruct (String.eqb name n); simpl.
    + now rewrite orb_true_r.
    + reflexivity.
Qed.

Lemma read_declared_NoDup (items acc res : dict yaml) :
  read_declared' items acc = OK res -> NoDup (keys acc) -> NoDup (keys res).
Proof.
  revert acc. induction items as [|[name config] items IH]; intros acc; simpl.
  - now intros [= <-].
  - intros H Hacc. apply bind_OK in H. destruct H as (value & _ & H).
    apply (IH _ H). now apply NoDup_keys_dict_set.
Qed.

Lemma pass_through_get (res : dict yaml) (n : string) :
  dict_get (pass_through provided res) n =
  match dict_get res n with
  | Some v => Some v
  | None => dict_get provided n
  end.
Proof.
  unfold pass_through. generalize provided as extra. intros extra. revert res.
  induction extra as [|[k0 v0] extra IH]; intros res.
  - simpl. now destruct (dict_get res n).
  - cbn [fold_left fst snd dict_get]. rewrite IH.
    destruct (dict_has res k0) eqn:Hhas.
    + destruct (dict_get res n) eqn:Hres; [reflexivity|].
      destruct (String.eqb k0 n) eqn:E; [|reflexivity].
      apply String.eqb_eq in E. subst k0.
      unfold dict_has in Hhas. now rewrite Hres in Hhas.
    + destruct (String.eqb k0 n) eqn:E.
      * apply String.eqb_eq in E. subst k0. rewrite dict_get_set_same.
        unfold dict_has in Hhas. now destruct (dict_get res n).
      * apply String.eqb_neq in E. now rewrite dict_get_set_other.
Qed.

Lemma pass_through_NoDup (res : dict yaml) :
  NoDup (keys res) -> NoDup (keys (pass_through provided res)).
Proof.
  unfold pass_through. generalize provided as extra. intros extra. revert res.
  induction extra as [|[k0 v0] extra IH]; intros res Hres; [exact Hres|].
  cbn [fold_left fst snd]. apply IH.
  destruct (dict_has res k0); [exact Hres | now apply NoDup_keys_dict_set].
Qed.

(** X5.  Every variable the caller provides is in the container with the
    provided value, whether it is declared or not. *)
Theorem provided_variables_in_container (declared : yaml)
    (container : VariableContainer) :
  _read_variables container_str upper environ declared provided = OK container ->
  forall name value,
    dict_get provided name = Some value ->
    has container name = true /\ get container name = value.
Proof.
  unfold _read_variables. intros H name value Hprovided.
  apply bind_OK in H. destruct H as (items & _ & H).
  apply bind_OK in H. destruct H as (res & Hres & H).
  injection H as <-.
  assert (Hget : dict_get (pass_through provided res) name = Some value).
  { rewrite pass_through_get.
    destruct (dict_get res name) as [x|] eqn:Hx; [|exact Hprovided].
    destruct (read_declared_origin _ _ _ Hres Hx) as [Hacc | (config & _ & Hread)];
      [discriminate|].
    apply read_variable_OK in Hread. destruct Hread as [Hcalc _].
    rewrite (calculate_provided _ _ Hprovided) in Hcalc. congruence. }
  unfold has, get, dict_has, get_default. cbn [variables]. now rewrite Hget.
Qed.

(** X6.  The names of the container are the declared names and the
    provided names, each once. *)
Theorem container_names (declared : dict yaml) (container : VariableContainer) :
  _read_variables container_str upper environ (YMap declared) provided = OK container ->
  NoDup (keys container.(variables)) /\
  forall name,
    has container name = dict_has declared name || dict_has provided name.
Proof.
  unfold _read_variables. cbn [yaml_items bind]. intros H.
  apply bind_OK in H. destruct H as (res & Hres & H). injection H as <-.
  cbn [variables]. split.
  - apply pass_through_NoDup. apply (read_declared_NoDup _ _ Hres). constructor.
  - intros name. unfold has, dict_has at 1. cbn [variables].
    rewrite pass_through_get.
    pose proof (read_declared_has _ _ name Hres) as Hhas.
    unfold dict_has at 1 2 in Hhas. simpl in Hhas.
    destruct (dict_get res name).
    + now rewrite <- Hhas.
    + rewrite <- Hhas. reflexivity.
Qed.

(** X7.  The container holds, for a declared name, the value
    [_calculate_variable_value] gives for its declaration; a declaration
    that is [required] has a value with a true truth value, and a
    declaration with an allow-list has a value of that list. *)
Theorem declared_variables_in_container (declared : dict yaml)
    (container : VariableContainer) (name : string) (config : dict yaml) :
  _read_variables container_str upper environ (YMap declared) provided = OK container ->
  NoDup (keys declared) ->
  dict_get declared name = Some (YMap config) ->
  _calculate_variable_value upper environ name (YMap config) provided
  = OK (get container name) /\
  (is_required config = true -> truthy (get container name) = true) /\
  (forall allowed,
     dict_get config "values" = Some (YList allowed) ->
     list_contains allowed (get container name) = true).
Proof.
  unfold _read_variables. cbn [yaml_items bind]. intros H Hnodup Hdeclared.
  apply bind_OK in H. destruct H as (res & Hres & H). injection H as <-.
  destruct (proj2 (read_declared_get _ _ Hres name) _ Hnodup Hdeclared)
    as (value & Hread & Hget).
  assert (Hvalue : get {| variables := pass_through provided res |} name = value).
  { unfold get, get_default. cbn [variables]. now rewrite pass_through_get, Hget. }
  rewrite Hvalue.
  destruct (read_variable_OK _ _ Hread) as (Hcalc & Hreq & has_values & Hhas & Hval).
  split; [exact Hcalc|]. split.
  - intros Hrequired. destruct (truthy value) eqn:Ht; [reflexivity|].
    destruct (Hreq eq_refl) as (r & Hr & Hfalse).
    cbn [yaml_get] in Hr. injection Hr as <-.
    unfold is_required, get_default in Hrequired. unfold or_default in Hfalse.
    congruence.
  - intros allowed Hallowed. cbn [yaml_has_key] in Hhas.
    unfold dict_has in Hhas. rewrite Hallowed in Hhas. injection Hhas as <-.
    destruct (Hval eq_refl) as (allowed' & Hindex & Hin).
    cbn [yaml_index] in Hindex. rewrite Hallowed in Hindex.
    injection Hindex as <-. cbn [py_in] in Hin. congruence.
Qed.

End Container.

(** ** Restrictions of other shapes *)

(** X8.  A restriction with a false truth value (absent, null, an empty map
    or list) restricts nothing; one with a true truth value that is not
    a map raises; and when [only] asks to skip, [except] is not looked
    at. *)
Theorem check_conditions_apply_shapes (variables : VariableContainer) :
  (forall only except,
     truthy only = false -> truthy except = false ->
     _check_conditions_apply variables only except = OK false) /\
  (forall only except,
     truthy only = true -> (forall m, only <> YMap m) ->
     _check_conditions_apply variables only except = Raise TypeError) /\
  (forall only except,
     only_fails variables only = true ->
     _check_conditions_apply variables (YMap only) except = OK true).
Proof.
  unfold _check_conditions_apply. repeat split.
  - intros only except Honly Hexcept. now rewrite Honly, Hexcept.
  - intros only except Honly Hshape. rewrite Honly.
    destruct only; try reflexivity. now destruct (Hshape m).
  - intros only except Hfails.
    destruct only as [|o only]; [discriminate|].
    cbn [truthy yaml_items bind]. now rewrite Hfails.
Qed.

Lemma check_conditions_apply_shapes_witness :
  _check_conditions_apply {| variables := [] |} YNull (YList []) = OK false /\
  _check_conditions_apply {| variables := [] |} (YStr "prod") YNull
  = Raise TypeError /\
  _check_conditions_apply {| variables := [] |}
    (YMap [("env", YStr "prod")]) (YStr "dev") = OK true.
Proof.
  destruct (check_conditions_apply_shapes {| variables := [] |})
    as (Hfalsy & Hshape & Honly).
  split; [|split].
  - apply Hfalsy; reflexivity.
  - apply Hshape; [reflexivity | discriminate].
  - apply Honly. reflexivity.
Defined.

(** ** Modules *)

Lemma split_length (c : ascii) (s : string) :
  List.length (split c s) = S (count_char c s).
Proof.
  induction s as [|d r IH]; [reflexivity|].
  simpl. destruct (Ascii.eqb d c); simpl.
  - now rewrite IH.
  - destruct (split c r); simpl in *; [discriminate | exact IH].
Qed.

Lemma split_none (c : ascii) (s : string) :
  count_char c s = 0%nat -> split c s = [s].
Proof.
  induction s as [|d r IH]; [reflexivity|].
  simpl. destruct (Ascii.eqb d c); [discriminate|].
  simpl. intros H. now rewrite IH.
Qed.

Lemma split_app (c : ascii) (a b : string) :
  count_char c a = 0%nat ->
  split c (a ++ String c b) = a :: split c b.
Proof.
  induction a as [|d a IH]; simpl.
  - now rewrite Ascii.eqb_refl.
  - destruct (Ascii.eqb d c); [discriminate|].
    simpl. intros H. now rewrite IH.
Qed.

Section Modules.

Variables obj manager : Type.
Variable import_module : list string -> string -> result (PyModule obj manager).

Local Abbreviation init_module' := (init_module import_module).
Local Abbreviation init_modules_loop' := (init_modules_loop import_module).

(** X9.  A module identifier with two or more colons raises [ValueError];
    nothing is imported for it. *)
Theorem init_module_many_colons (state : modules_state obj manager)
    (module_path : string) :
  (2 <= count_char ":" module_path)%nat ->
  init_module' state (YStr module_path) = Raise ValueError.
Proof.
  intros H. unfold init_module. destruct state as [[managers modules] sys_path].
  cbn [as_str bind].
  replace (0 <? count_char ":" module_path)%nat with true
    by (symmetry; apply Nat.ltb_lt; lia).
  pose proof (split_length ":" module_path) as Hlen.
  destruct (split ":" module_path) as [|a [|b [|c l]]]; simpl in Hlen;
    try reflexivity; lia.
Qed.

(** X10.  An identifier [path:module] puts [path] in front of the search
    path before [module] is imported, and the longer search path is
    the one the next import sees; an identifier without a colon leaves
    the search path as it is. *)
Theorem init_module_search_path (managers : dict manager)
    (modules : dict (module_entry obj)) (sys_path : list string)
    (path name next : string) :
  count_char ":" path = 0%nat ->
  count_char ":" name = 0%nat ->
  count_char ":" next = 0%nat ->
  init_module' (managers, modules, sys_path) (YStr (path ++ ":" ++ name)) =
    (module <- import_module (path :: sys_path) name ;;
     OK (register module managers modules, path :: sys_path)) /\
  init_module' (managers, modules, sys_path) (YStr next) =
    (module <- import_module sys_path next ;;
     OK (register module managers modules, sys_path)) /\
  init_modules_loop' [YStr (path ++ ":" ++ name); YStr next]
    (managers, modules, sys_path) =
    (first <- import_module (path :: sys_path) name ;;
     second <- import_module (path :: sys_path) next ;;
     let (managers', modules') := register first managers modules in
     OK (register second managers' modules', path :: sys_path)).
Proof.
  intros Hpath Hname Hnext.
  assert (Hfirst :
    init_module' (managers, modules, sys_path) (YStr (path ++ ":" ++ name)) =
    (module <- import_module (path :: sys_path) name ;;
     OK (register module managers modules, path :: sys_path))).
  { unfold init_module. cbn [as_str bind].
    rewrite count_char_app. simpl count_char. rewrite Hpath, Hname.
    cbn [Nat.add Nat.ltb Nat.leb].
    change (path ++ ":" ++ name)%string with (path ++ String ":" name)%string.
    rewrite split_app, split_none by assumption. cbn [unpack2 bind].
    destruct (import_module (path :: sys_path) name); reflexivity. }
  assert (Hplain : forall sp managers0 modules0,
    init_module' (managers0, modules0, sp) (YStr next) =
    (module <- import_module sp next ;;
     OK (register module managers0 modules0, sp))).
  { intros sp managers0 modules0. unfold init_module. cbn [as_str bind].
    rewrite Hnext. cbn [Nat.ltb Nat.leb bind].
    destruct (import_module sp next); reflexivity. }
  split; [exact Hfirst|]. split; [apply Hplain|].
  cbn [init_modules_loop]. rewrite Hfirst.
  destruct (import_module (path :: sys_path) name) as [first|e]; cbn [bind];
    [|reflexivity].
  unfold register at 1. rewrite Hplain.
  destruct (import_module (path :: sys_path) next); reflexivity.
Qed.

Lemma init_module_OK (state state' : modules_state obj manager) (x : yaml) :
  init_module' state x = OK state' ->
  exists raw sys_path name module,
    x = YStr raw /\
    (count_char ":" raw = 0%nat -> name = raw) /\
    import_module sys_path name = OK module /\
    state' = (register module (fst (fst state)) (snd (fst state)), sys_path).
Proof.
  unfold init_module. destruct state as [[managers modules] sys_path].
  intros H. apply bind_OK in H. destruct H as (raw & Hraw & H).
  destruct x; try discriminate. injection Hraw as ->.
  apply bind_OK in H. destruct H as ([sp name] & Hsplit & H).
  apply bind_OK in H. destruct H as (module & Himport & H).
  injection H as <-.
  exists raw, sp, name, module. split; [reflexivity|]. split; [|auto].
  intros Hcolon. rewrite Hcolon in Hsplit. cbn in Hsplit. congruence.
Qed.

Lemma init_modules_loop_keeps (paths : list yaml)
    (state state' : modules_state obj manager) :
  init_modules_loop' paths state = OK state' ->
  (forall k, dict_has (fst (fst state)) k = true ->
             dict_has (fst (fst state')) k = true) /\
  (forall k, dict_has (snd (fst state)) k = true ->
             dict_has (snd (fst state')) k = true).
Proof.
  revert state. induction paths as [|x paths IH]; intros state; simpl.
  - intros [= <-]. auto.
  - intros H. apply bind_OK in H. destruct H as (state1 & Hone & H).
    destruct (IH _ H) as [IHmanagers IHmodules].
    destruct (init_module_OK _ _ Hone) as (raw & sp & name & module & _ & _ & _ & ->).
    cbn [fst snd register] in *. split; intros k Hk.
    + apply IHmanagers. rewrite dict_has_set, Hk. apply orb_true_r.
    + apply IHmodules. rewrite dict_has_set, Hk. apply orb_true_r.
Qed.

Lemma init_modules_loop_registers (paths : list yaml)
    (state state' : modules_state obj manager) (raw : string) :
  init_modules_loop' paths state = OK state' ->
  In (YStr raw) paths ->
  count_char ":" raw = 0%nat ->
  exists sys_path module,
    import_module sys_path raw = OK module /\
    dict_has (fst (fst state')) module.(__config__) = true /\
    dict_has (snd (fst state')) module.(__config_name__) = true.
Proof.
  revert state. induction paths as [|x paths IH]; intros state; simpl.
  - intros _ [].
  - intros H Hin Hcolon. apply bind_OK in H. destruct H as (state1 & Hone & H).
    destruct Hin as [-> | Hin]; [|now apply (IH _ H)].
    destruct (init_module_OK _ _ Hone)
      as (raw' & sp & name & module & Hraw & Hname & Himport & ->).
    injection Hraw as <-. rewrite (Hname Hcolon) in Himport.
    exists sp, module. split; [exact Himport|].
    destruct (init_modules_loop_keeps _ _ H) as [Hmanagers Hmodules].
    cbn [fst snd register] in *. split.
    + apply Hmanagers. rewrite dict_has_set, String.eqb_refl. reflexivity.
    + apply Hmodules. rewrite dict_has_set, String.eqb_refl. reflexivity.
Qed.

(** X11.  When [_init_modules] returns, each of the standard modules was
    imported under its own path, and the manager key and the config
    name of what the import gave are registered. *)
Theorem init_modules_registers_standard (sys_path sys_path' : list string)
    (additional_modules : yaml) (managers : dict manager)
    (modules : dict (module_entry obj)) :
  _init_modules import_module sys_path additional_modules
  = OK (managers, modules, sys_path') ->
  forall module_path,
    In module_path STANDARD_MODULES ->
    exists search_path module,
      import_module search_path module_path = OK module /\
      dict_has managers module.(__config__) = true /\
      dict_has modules module.(__config_name__) = true.
Proof.
  unfold _init_modules. destruct additional_modules; try discriminate.
  intros H module_path Hin.
  apply (init_modules_loop_registers _ _ module_path H).
  - apply in_or_app. left. now apply in_map.
  - simpl in Hin.
    repeat (destruct Hin as [<- | Hin]; [reflexivity|]). destruct Hin.
Qed.

End Modules.

(** ** Deployment objects *)

Section Objects.

Variable obj : Type.
Variable obj_truthy : obj -> bool.
Variable modules : dict (module_entry obj).
Variable resolved : VariableContainer.
Variable config_helper : ConfigHelper.

Lemma read_entity_objects (module : module_entry obj)
    (objects objects' : dict obj) (d d' : dict yaml)
    (name : string) (entity_config : yaml) (n : string) :
  read_entity module resolved config_helper (objects, d) name entity_config
  = OK (objects', d') ->
  dict_has objects' n =
  dict_has objects n || named n (filter (entity_kept resolved) [(name, entity_config)]).
Proof.
  unfold read_entity, entity_kept, named.
  destruct entity_config as [| | | | |m]; try discriminate.
  cbn [yaml_get bind filter snd]. unfold or_default, get_default.
  destruct (_check_conditions_apply resolved
              match dict_get m "only" with Some v => v | None => YMap [] end
              match dict_get m "except" with Some v => v | None => YMap [] end)
    as [[|]|e]; cbn [bind].
  - intros [= <- <-]. simpl. now rewrite orb_false_r.
  - destruct (parser module name (YMap m) config_helper); cbn [bind];
      [|discriminate].
    intros [= <- <-]. rewrite dict_has_set. simpl.
    rewrite orb_false_r. apply orb_comm.
  - discriminate.
Qed.

Lemma named_app (n : string) (a b : list (string * yaml)) :
  named n (a ++ b) = named n a || named n b.
Proof. apply existsb_app. Qed.

Lemma read_entities_objects (module : module_entry obj)
    (entities : list (string * yaml))
    (objects objects' : dict obj) (d d' : dict yaml) (n : string) :
  read_entities module resolved config_helper entities (objects, d)
  = OK (objects', d') ->
  dict_has objects' n =
  dict_has objects n || named n (filter (entity_kept resolved) entities).
Proof.
  revert objects d.
  induction entities as [|[name entity_config] entities IH]; intros objects d.
  - intros [= <- <-]. simpl. now rewrite orb_false_r.
  - cbn [read_entities]. intros H.
    apply bind_OK in H. destruct H as ([o1 d1] & Hone & H).
    rewrite (IH _ _ H), (read_entity_objects _ _ _ _ _ n Hone).
    change ((name, entity_config) :: entities)
      with ([(name, entity_config)] ++ entities).
    now rewrite filter_app, named_app, orb_assoc.
Qed.

Lemma read_section_objects (objects objects' : dict obj) (d d' : dict yaml)
    (name : string) (entity_config : yaml) (n : string) :
  read_section modules resolved config_helper (objects, d) name entity_config
  = OK (objects', d') ->
  dict_has objects' n =
  dict_has objects n ||
  named n (filter (entity_kept resolved)
             (section_entities modules config_helper (name, entity_config))).
Proof.
  unfold read_section, section_entities.
  destruct (reserved name).
  - intros [= <- <-]. simpl. now rewrite orb_false_r.
  - destruct (lookup_module modules entity_config) as [module|e];
      cbn [bind]; [|discriminate].
    destruct (preprocesser module) as [f|]; cbn [bind].
    + destruct (f name entity_config config_helper); cbn [bind]; [|discriminate].
      apply read_entities_objects.
    + apply read_entities_objects.
Qed.

Lemma read_sections_objects (config : dict yaml)
    (objects objects' : dict obj) (d d' : dict yaml) (n : string) :
  read_sections modules resolved config_helper config (objects, d)
  = OK (objects', d') ->
  dict_has objects' n =
  dict_has objects n ||
  named n (filter (entity_kept resolved)
             (flat_map (section_entities modules config_helper) config)).
Proof.
  revert objects d.
  induction config as [|[name entity_config] config IH]; intros objects d.
  - intros [= <- <-]. simpl. now rewrite orb_false_r.
  - cbn [read_sections flat_map]. intros H.
    apply bind_OK in H. destruct H as ([o1 d1] & Hone & H).
    rewrite (IH _ _ H), (read_section_objects _ _ _ _ n Hone).
    now rewrite filter_app, named_app, orb_assoc.
Qed.

Lemma read_entities_app (module : module_entry obj)
    (a b : list (string * yaml)) (state : entities_state obj) :
  read_entities module resolved config_helper (a ++ b) state =
  (state' <- read_entities module resolved config_helper a state ;;
   read_entities module resolved config_helper b state').
Proof.
  revert state. induction a as [|[name entity_config] a IH]; intros state; simpl.
  - reflexivity.
  - destruct (read_entity module resolved config_helper state name entity_config);
      simpl; auto.
Qed.

Lemma read_entity_get (module : module_entry obj)
    (objects objects' : dict obj) (d d' : dict yaml)
    (name : string) (entity_config : yaml) :
  read_entity module resolved config_helper (objects, d) name entity_config
  = OK (objects', d') ->
  if entity_kept resolved (name, entity_config)
  then exists o, parser module name entity_config config_helper = OK o /\
                 objects' = dict_set objects name o
  else objects' = objects.
Proof.
  unfold read_entity, entity_kept.
  destruct entity_config as [| | | | |m]; try discriminate.
  cbn [yaml_get bind snd]. unfold or_default, get_default.
  destruct (_check_conditions_apply resolved
              match dict_get m "only" with Some v => v | None => YMap [] end
              match dict_get m "except" with Some v => v | None => YMap [] end)
    as [[|]|e]; cbn [bind].
  - now intros [= <- <-].
  - destruct (parser module name (YMap m) config_helper) as [o|]; cbn [bind];
      [|discriminate].
    intros [= <- <-]. exists o. auto.
  - discriminate.
Qed.

Lemma read_entities_get_other (module : module_entry obj)
    (entities : list (string * yaml))
    (objects objects' : dict obj) (d d' : dict yaml) (n : string) :
  read_entities module resolved config_helper entities (objects, d)
  = OK (objects', d') ->
  named n (filter (entity_kept resolved) entities) = false ->
  dict_get objects' n = dict_get objects n.
Proof.
  revert objects d.
  induction entities as [|[name entity_config] entities IH]; intros objects d.
  - now intros [= <- <-].
  - cbn [read_entities filter]. intros H Hnamed.
    apply bind_OK in H. destruct H as ([o1 d1] & Hone & H).
    apply read_entity_get in Hone.
    destruct (entity_kept resolved (name, entity_config)).
    + unfold named in Hnamed. cbn [existsb fst] in Hnamed.
      apply orb_false_iff in Hnamed. destruct Hnamed as [Hname Hrest].
      destruct Hone as (o & _ & ->).
      rewrite (IH _ _ H Hrest). apply dict_get_set_other.
      now apply String.eqb_neq.
    + subst o1. now apply (IH _ _ H).
Qed.

(** X13.  Entities of one name overwrite each other: the deployment object
    under a name is what the parser made of the last entity of that
    name that reached it. *)
Theorem last_entity_of_a_name_wins (module : module_entry obj)
    (before after : list (string * yaml)) (name : string) (entity_config : yaml)
    (objects objects' : dict obj) (d d' : dict yaml) :
  read_entities module resolved config_helper
    (before ++ (name, entity_config) :: after) (objects, d)
  = OK (objects', d') ->
  entity_kept resolved (name, entity_config) = true ->
  named name (filter (entity_kept resolved) after) = false ->
  exists o,
    parser module name entity_config config_helper = OK o /\
    dict_get objects' name = Some o.
Proof.
  intros H Hkept Hafter. rewrite read_entities_app in H.
  apply bind_OK in H. destruct H as ([o1 d1] & _ & H).
  cbn [read_entities] in H.
  apply bind_OK in H. destruct H as ([o2 d2] & Hone & H).
  apply read_entity_get in Hone. rewrite Hkept in Hone.
  destruct Hone as (o & Hparse & ->).
  exists o. split; [exact Hparse|].
  rewrite (read_entities_get_other _ _ _ _ _ H Hafter).
  apply dict_get_set_same.
Qed.

Lemma named_In (n : string) (entities : list (string * yaml)) :
  named n entities = true <-> exists entity_config, In (n, entity_config) entities.
Proof.
  unfold named. rewrite existsb_exists. split.
  - intros ([name cfg] & Hin & Heq). apply String.eqb_eq in Heq.
    simpl in Heq. subst. eauto.
  - intros (cfg & Hin). exists (n, cfg). split; [exact Hin|].
    apply String.eqb_refl.
Qed.

(** X12.  After a load the deployment objects have a key exactly for the
    names of the entities that reached the parser: a section under a
    reserved key and an entity that the conditions skip leave no
    object. *)
Theorem deployment_object_names (config : dict yaml) (objects : dict obj)
    (graph : dict (list (dependency_triple obj))) :
  _read_config_entities obj_truthy modules resolved config config_helper
  = OK (objects, graph) ->
  forall name,
    dict_has objects name = true <->
    exists entity_config,
      In (name, entity_config)
         (kept_entities modules resolved config_helper config).
Proof.
  unfold _read_config_entities, kept_entities. intros H name.
  apply bind_OK in H. destruct H as ([o d] & Hread & H).
  apply bind_OK in H. destruct H as (g & _ & H). injection H as <- <-.
  rewrite (@read_sections_objects _ _ _ _ _ name Hread).
  unfold dict_has at 1. simpl. apply named_In.
Qed.

Lemma build_entries_has (objects : dict obj) (items : dict yaml)
    (graph : dict (list (dependency_triple obj))) (n : string) :
  NoDup (keys items) ->
  build_entries obj_truthy objects items [] = OK graph ->
  dict_has graph n = dict_has items n.
Proof.
  intros Hnodup Hbuild.
  destruct (@build_entries_get _ obj_truthy objects items [] graph Hbuild n)
    as [Hnone Hsome].
  unfold dict_has at 2. destruct (dict_get items n) as [sd|] eqn:E.
  - destruct (Hsome sd Hnodup eq_refl) as (raw & ts & _ & _ & Hg).
    unfold dict_has. now rewrite Hg.
  - unfold dict_has. now rewrite (Hnone eq_refl).
Qed.

Lemma resolve_dependency_truthy (objects : dict obj) (dependency : yaml)
    (name kind : string) (o : obj) :
  resolve_dependency obj_truthy objects dependency = OK (name, o, kind) ->
  dict_get objects name = Some o /\ obj_truthy o = true.
Proof.
  unfold resolve_dependency.
  destruct dependency as [| | |raw| |]; try discriminate.
  cbn [as_str bind].
  destruct (split_dependency raw) as [[name' kind']|e]; cbn [bind]; [|discriminate].
  destruct (dict_get objects name') as [o'|] eqn:Hget; [|discriminate].
  destruct (obj_truthy o') eqn:Ht; [|discriminate].
  intros [= <- <- <-]. auto.
Qed.

Lemma resolve_all_truthy (objects : dict obj) (raw : list yaml)
    (triples : list (dependency_triple obj)) (name kind : string) (o : obj) :
  resolve_all obj_truthy objects raw = OK triples ->
  In (name, o, kind) triples ->
  dict_get objects name = Some o /\ obj_truthy o = true.
Proof.
  revert triples. induction raw as [|x raw IH]; intros triples; simpl.
  - intros [= <-] [].
  - intros H. apply bind_OK in H. destruct H as (t & Ht & H).
    apply bind_OK in H. destruct H as (ts & Hts & H). injection H as <-.
    intros [-> | Hin].
    + now apply resolve_dependency_truthy in Ht.
    + now apply (IH ts).
Qed.

(** X14.  The graph of a load refers to deployment objects of the same load
    only: every key of the graph is the name of a deployment object,
    and every triple holds the deployment object stored under its
    target name, which has a true truth value. *)
Theorem graph_within_objects (config : dict yaml) (objects : dict obj)
    (graph : dict (list (dependency_triple obj))) :
  _read_config_entities obj_truthy modules resolved config config_helper
  = OK (objects, graph) ->
  (forall name, dict_has graph name = true -> dict_has objects name = true) /\
  (forall name triples target o kind,
     dict_get graph name = Some triples ->
     In (target, o, kind) triples ->
     dict_get objects target = Some o /\ obj_truthy o = true).
Proof.
  unfold _read_config_entities, _build_dependency_tree. intros H.
  apply bind_OK in H. destruct H as ([o d] & Hread & H).
  apply bind_OK in H. destruct H as (g & Hbuild & H). injection H as <- <-.
  pose proof Hread as Hd. apply read_sections_recorded in Hd.
  assert (Hnodup : NoDup (keys d)).
  { subst d. apply recorded_NoDup. constructor. }
  split.
  - intros name Hname.
    rewrite (@build_entries_has o d g name Hnodup Hbuild) in Hname.
    rewrite (@read_sections_objects _ _ _ _ _ name Hread).
    subst d. apply recorded_has in Hname.
    destruct Hname as [Hname | (cfg & Hin & _)]; [discriminate|].
    unfold dict_has at 1. simpl. apply named_In. eauto.
  - intros name triples target o0 kind Hget Hin.
    destruct (@build_entries_get _ obj_truthy o d [] g Hbuild name)
      as [Hnone Hsome].
    destruct (dict_get d name) as [sd|] eqn:E.
    + destruct (Hsome sd Hnodup eq_refl) as (raw & ts & _ & Hts & Hg).
      rewrite Hget in Hg. injection Hg as <-.
      eapply resolve_all_truthy; eauto.
    + rewrite (Hnone eq_refl) in Hget. discriminate.
Qed.

(** X15.  A deployment object with a false truth value counts as missing: a
    dependency on it raises the same exception as a dependency on a
    name without an object, and the graph is not built. *)
Theorem falsy_object_counts_as_missing (objects : dict obj)
    (dependency name kind : string) (o : obj) :
  split_dependency dependency = OK (name, kind) ->
  dict_get objects name = Some o ->
  obj_truthy o = false ->
  resolve_dependency obj_truthy objects (YStr dependency) =
  Raise (Exception ("Could not find " ++ name)) /\
  forall dependencies entity string_dependencies raw,
    In (entity, string_dependencies) dependencies ->
    py_iter string_dependencies = OK raw ->
    In (YStr dependency) raw ->
    fails (_build_dependency_tree obj_truthy dependencies objects).
Proof.
  intros Hsplit Hget Hfalsy.
  assert (Hone : resolve_dependency obj_truthy objects (YStr dependency) =
                 Raise (Exception ("Could not find " ++ name))).
  { unfold resolve_dependency. cbn [as_str bind]. rewrite Hsplit. cbn [bind].
    now rewrite Hget, Hfalsy. }
  split; [exact Hone|].
  intros dependencies entity string_dependencies raw Hin Hraw Hdep.
  unfold _build_dependency_tree.
  eapply build_entries_fails; eauto.
  rewrite Hone. eexists. reflexivity.
Qed.

End Objects.

(** ** The merged config and the shapes of the reserved keys *)

Lemma merge_include_NoDup (include : string) (items config config' : dict yaml) :
  merge_include include items config = OK config' ->
  NoDup (keys config) -> NoDup (keys config').
Proof.
  revert config. induction items as [|[key values] items IH]; intros config; simpl.
  - now intros [= <-].
  - destruct (dict_has config key); [discriminate|].
    intros H Hnodup. apply (IH _ H). now apply NoDup_keys_dict_set.
Qed.

Section Documents.

Variable container_str : yaml -> string.
Variable upper : string -> string.
Variables obj manager : Type.
Variable obj_truthy : obj -> bool.
Variable import_module : list string -> string -> result (PyModule obj manager).
Variable read_yaml : string -> result yaml.
Variables abspath dirname : string -> string.
Variable path_join : string -> string -> string.

Local Abbreviation merge_includes' :=
  (merge_includes read_yaml abspath path_join).
Local Abbreviation read_config_documents' :=
  (read_config_documents container_str upper read_yaml abspath dirname path_join).
Local Abbreviation read_config' :=
  (read_config container_str upper obj_truthy import_module read_yaml
     abspath dirname path_join).

(** X16.  When the includes merge, the config is the one before followed by
    the items of the included documents, in the order of the includes
    and of each document; and a config without a repeated key stays
    without one. *)
Theorem merge_includes_result (base_path : string) (includes : list yaml)
    (config config' : dict yaml) :
  merge_includes' base_path includes config = OK config' ->
  exists documents,
    Forall2 (fun include items =>
               exists path, include = YStr path /\
                 read_yaml (abspath (path_join base_path path)) = OK (YMap items))
            includes documents /\
    config' = config ++ List.concat documents /\
    (NoDup (keys config) -> NoDup (keys config')).
Proof.
  revert config. induction includes as [|include includes IH]; intros config; simpl.
  - intros [= <-]. exists []. split; [constructor|].
    split; [now rewrite app_nil_r | auto].
  - intros H.
    apply bind_OK in H. destruct H as (path & Hpath & H).
    apply bind_OK in H. destruct H as (doc & Hdoc & H).
    apply bind_OK in H. destruct H as (items & Hitems & H).
    apply bind_OK in H. destruct H as (c1 & Hmerge & H).
    destruct include; try discriminate. injection Hpath as ->.
    destruct doc; try discriminate. injection Hitems as ->.
    destruct (IH _ H) as (documents & Hdocs & -> & Hnodup).
    exists (items :: documents). split; [|split].
    + constructor; [|exact Hdocs]. exists path. auto.
    + apply merge_include_appends in Hmerge. subst c1.
      simpl. now rewrite app_assoc.
    + intros Hconfig. apply Hnodup.
      now apply (merge_include_NoDup _ _ _ Hmerge).
Qed.

(** X17.  The defaults of the reserved keys stand in for a missing key only.
    A [variables] key whose value is not a map, an [includes] key whose
    value cannot be iterated, and a [modules] key whose value is not a
    list, as each is when the key is written with an empty body, end the
    load with [TypeError]. *)
Theorem reserved_key_shapes (sys_path : list string) (environ : dict string)
    (filename : string) (provided root : dict yaml) :
  read_yaml (abspath filename) = OK (YMap root) ->
  (forall v, dict_get root "variables" = Some v -> (forall m, v <> YMap m) ->
     read_config' sys_path environ filename provided = Raise TypeError) /\
  (forall container v,
     _read_variables container_str upper environ
       (get_default root "variables" (YMap [])) provided = OK container ->
     dict_get root "includes" = Some v -> py_iter v = Raise TypeError ->
     read_config' sys_path environ filename provided = Raise TypeError) /\
  (forall container helper config v,
     read_config_documents' environ filename provided
     = OK (container, helper, config) ->
     dict_get config "modules" = Some v -> (forall l, v <> YList l) ->
     read_config' sys_path environ filename provided = Raise TypeError).
Proof.
  intros Hroot. split; [|split].
  - intros v Hv Hshape. unfold read_config, read_config_documents.
    rewrite Hroot. cbn [bind yaml_items]. unfold get_default. rewrite Hv.
    unfold _read_variables.
    destruct v; try reflexivity. now destruct (Hshape m).
  - intros container v Hvars Hv Hiter. unfold read_config, read_config_documents.
    rewrite Hroot. cbn [bind yaml_items]. rewrite Hvars. cbn [bind].
    unfold get_default at 1. rewrite Hv, Hiter. reflexivity.
  - intros container helper config v Hdocs Hv Hshape. unfold read_config.
    rewrite Hdocs. cbn [bind]. unfold get_default. rewrite Hv.
    unfold _init_modules.
    destruct v; try reflexivity. now destruct (Hshape l).
Qed.

End Documents.

(** ** The file readers *)

(** X18.  [read_yaml] and [read_json] decode the text of the file as it is,
    whatever [render_variables] says: the templates in the file are
    rendered, and checked, by [read_file] only. *)
Theorem readers_do_not_render
    (pystache_render : string -> dict yaml -> result string)
    (open_read : string -> result string)
    (yaml_load json_loads : string -> result yaml)
    (abspath : string -> string) (path_join : string -> string -> string)
    (self : ConfigHelper) (filename data : string) (render_variables : bool) :
  open_read (abspath (path_join self.(base_path) filename)) = OK data ->
  ConfigHelper_read_yaml pystache_render open_read yaml_load abspath path_join
    self filename render_variables = yaml_load data /\
  ConfigHelper_read_json pystache_render open_read json_loads abspath path_join
    self filename render_variables = json_loads data /\
  ConfigHelper_read_file pystache_render open_read abspath path_join
    self filename false = OK data /\
  ConfigHelper_read_file pystache_render open_read abspath path_join
    self filename true = render pystache_render self.(variables_container) data [].
Proof.
  intros Hread.
  unfold ConfigHelper_read_yaml, ConfigHelper_read_json, ConfigHelper_read_file,
    ConfigHelper_abspath.
  rewrite Hread. repeat split.
Qed.

Lemma readers_do_not_render_witness :
  ConfigHelper_read_json (Pystache.render (py_str Sample.container_str))
    Sample.open_read Sample.decode Sample.abspath Sample.path_join
    (Sample.helper []) "app.json" true = OK (YStr "{{image}}") /\
  ConfigHelper_read_file (Pystache.render (py_str Sample.container_str))
    Sample.open_read Sample.abspath Sample.path_join
    (Sample.helper []) "app.json" true = OK "".
Proof.
  destruct (@readers_do_not_render (Pystache.render (py_str Sample.container_str))
              Sample.open_read Sample.decode Sample.decode
              Sample.abspath Sample.path_join (Sample.helper [])
              "app.json" "{{image}}" true eq_refl)
    as (_ & Hjson & _ & Hfile).
  split; [exact Hjson | exact Hfile].
Defined.

(** ** The further properties on the small installation *)

Lemma provided_variables_in_container_witness :
  has Sample.resolved "team" = true /\ get Sample.resolved "team" = YStr "ops".
Proof.
  apply (@provided_variables_in_container Sample.container_str ascii_upper [] Sample.overrides
           (YMap Sample.declared) Sample.resolved eq_refl "team" (YStr "ops")
           eq_refl).
Defined.

Lemma container_names_witness :
  NoDup (keys Sample.resolved.(variables)) /\
  has Sample.resolved "team" =
  dict_has Sample.declared "team" || dict_has Sample.overrides "team".
Proof.
  destruct (@container_names Sample.container_str ascii_upper [] Sample.overrides
              Sample.declared Sample.resolved eq_refl) as [Hnodup Hnames].
  split; [exact Hnodup | apply Hnames].
Defined.

Lemma declared_variables_in_container_witness :
  truthy (get Sample.resolved "env") = true /\
  list_contains [YStr "dev"; YStr "prod"] (get Sample.resolved "env") = true.
Proof.
  destruct (@declared_variables_in_container Sample.container_str ascii_upper []
              Sample.overrides Sample.declared Sample.resolved "env"
              [("required", YBool true); ("default", YStr "dev");
               ("values", YList [YStr "dev"; YStr "prod"])]
              eq_refl)
    as (_ & Hrequired & Hallowed).
  - repeat constructor. simpl. tauto.
  - reflexivity.
  - split; [apply Hrequired; reflexivity | apply Hallowed; reflexivity].
Defined.

Lemma init_module_many_colons_witness :
  init_module Sample.import_module ([], [], []) (YStr "a:b:c") = Raise ValueError.
Proof.
  apply (init_module_many_colons Sample.import_module ([], [], []) "a:b:c").
  simpl. lia.
Defined.

Lemma init_module_search_path_witness :
  init_modules_loop Sample.import_module
    [YStr ("plugins" ++ ":" ++ "mine"); YStr "other"] ([], [], []) =
  (first <- Sample.import_module ["plugins"] "mine" ;;
   second <- Sample.import_module ["plugins"] "other" ;;
   let (managers', modules') := register first [] [] in
   OK (register second managers' modules', ["plugins"])).
Proof.
  apply (proj2 (proj2 (init_module_search_path Sample.import_module [] [] []
                         "plugins" "mine" "other" eq_refl eq_refl eq_refl))).
Defined.

Lemma init_modules_registers_standard_witness :
  exists search_path module,
    Sample.import_module search_path "dcosdeploy.modules.apps" = OK module /\
    dict_has Sample.standard_managers module.(__config__) = true /\
    dict_has Sample.standard_modules module.(__config_name__) = true.
Proof.
  apply (@init_modules_registers_standard yaml string Sample.import_module []
           [] (YList []) Sample.standard_managers Sample.standard_modules
           eq_refl "dcosdeploy.modules.apps").
  simpl. tauto.
Defined.

Lemma deployment_object_names_witness :
  exists entity_config,
    In ("db", entity_config)
       (kept_entities Sample.modules {| variables := [] |} (Sample.helper [])
          Sample.with_db).
Proof.
  apply (proj1 (@deployment_object_names yaml truthy Sample.modules
                  {| variables := [] |} (Sample.helper []) Sample.with_db
                  Sample.with_db
                  [("web", [("db", Sample.db, "update"); ("db", Sample.db, "create")])]
                  eq_refl "db")).
  reflexivity.
Defined.

Lemma graph_within_objects_witness :
  dict_has Sample.with_db "web" = true /\
  dict_get Sample.with_db "db" = Some Sample.db /\ truthy Sample.db = true.
Proof.
  destruct (@graph_within_objects yaml truthy Sample.modules
              {| variables := [] |} (Sample.helper []) Sample.with_db
              Sample.with_db
              [("web", [("db", Sample.db, "update"); ("db", Sample.db, "create")])]
              eq_refl) as [Hkeys Htriples].
  split; [apply Hkeys; reflexivity|].
  apply (Htriples "web" [("db", Sample.db, "update"); ("db", Sample.db, "create")]
           "db" Sample.db "update" eq_refl (or_introl eq_refl)).
Defined.

Lemma falsy_object_counts_as_missing_witness :
  resolve_dependency truthy [("db", YNull)] (YStr "db") =
  Raise (Exception "Could not find db").
Proof.
  apply (proj1 (@falsy_object_counts_as_missing yaml truthy [("db", YNull)] "db"
                  "db" "create" YNull eq_refl eq_refl eq_refl)).
Defined.

Lemma merge_includes_result_witness :
  exists documents,
    [("includes", YList [YStr "vars.yml"]); ("db", Sample.db);
     ("variables", YMap [("token", YMap [("required", YBool true)])])] =
    [("includes", YList [YStr "vars.yml"]); ("db", Sample.db)]
      ++ List.concat documents.
Proof.
  destruct (@merge_includes_result (Sample.read_files Sample.included_variables)
              Sample.abspath Sample.path_join "" [YStr "vars.yml"]
              [("includes", YList [YStr "vars.yml"]); ("db", Sample.db)]
              _ eq_refl)
    as (documents & _ & Hconfig & _).
  exists documents. exact Hconfig.
Defined.

Lemma reserved_key_shapes_witness :
  Sample.read_config [("dcos.yml", YMap [("variables", YNull)])] [] "dcos.yml" []
  = Raise TypeError.
Proof.
  apply (proj1 (@reserved_key_shapes Sample.container_str ascii_upper yaml string truthy
                  Sample.import_module
                  (Sample.read_files [("dcos.yml", YMap [("variables", YNull)])])
                  Sample.abspath Sample.dirname Sample.path_join
                  [] [] "dcos.yml" [] [("variables", YNull)] eq_refl)
           YNull eq_refl).
  discriminate.
Defined.

Lemma last_entity_of_a_name_wins_witness :
  exists o,
    OK (YMap [("type", YStr "apps"); ("image", YStr "second")]) = OK o /\
    dict_get [("web", YMap [("type", YStr "apps"); ("image", YStr "second")])]
      "web" = Some o.
Proof.
  apply (@last_entity_of_a_name_wins yaml {| variables := [] |} (Sample.helper [])
           {| parser := fun _ entity_config _ => OK entity_config;
              preprocesser := None |}
           [("web", YMap [("type", YStr "apps"); ("image", YStr "first")])] []
           "web" (YMap [("type", YStr "apps"); ("image", YStr "second")])
           [] _ [] [] eq_refl eq_refl eq_refl).
Defined.
